(** * A shallow embedding of the GitLab MCP server's HTTP client core

    Sources embedded here:
    - [src/unnamed/part_003]: [parseTenantCredentials], [validateCredentials],
      [getEnvNumber] and its three getters;
    - [src/unnamed/part_000]: the Worker [fetch] handler;
    - [src/src/types/entities.ts]: [GitLabClientImpl] ([getAuthHeaders],
      [request], [requestWithPagination], [testConnection],
      [getCurrentUser], [getProject], [getBranch], [getGroup],
      [listGroupProjects], [listProjects], [listUsers], [buildQueryString],
      [toSnakeCase], [getFileRaw], [getJobLog]);
    - [src/src/utils/pagination.ts]: [PAGINATION_DEFAULTS],
      [normalizePaginationParams], [createPaginatedResponse],
      [parseGitLabPaginationHeaders], [emptyPaginatedResponse],
      [hasMoreItems], [getNextPage];
    - [src/src/utils/formatters.ts]: [formatPaginationInfo].

    JavaScript strings are modelled as Rocq [string]s holding their UTF-8
    encoding (a lone surrogate, which only a JSON [\u] escape produces
    here, takes the three bytes of its code point).  JavaScript numbers are
    IEEE 754 doubles, modelled exactly as [num] below. *)

From Stdlib Require Import ZArith String Ascii List Bool Lia.
From Stdlib Require Import Numbers.DecimalString Numbers.DecimalPos.
Import ListNotations.

Set Warnings "-register-all".

Open Scope string_scope.
Open Scope Z_scope.

(** ** Strings and characters *)

Definition ascii_eqb (a b : ascii) : bool := Ascii.eqb a b.

Definition is_digit (c : ascii) : bool :=
  let n := nat_of_ascii c in (48 <=? n)%nat && (n <=? 57)%nat.

Definition digit_value (c : ascii) : Z := Z.of_nat (nat_of_ascii c) - 48.

(** The double-quote character and a string between double quotes. *)
Definition dq : ascii := ascii_of_nat 34.

Definition quoted (s : string) : string := String dq (s ++ String dq EmptyString).

(** ASCII lower-casing, used for the case-insensitive header names of the
    Fetch API's [Headers]. *)
Definition lower (c : ascii) : ascii :=
  let n := nat_of_ascii c in
  if (65 <=? n)%nat && (n <=? 90)%nat then ascii_of_nat (n + 32) else c.

Fixpoint lower_string (s : string) : string :=
  match s with
  | EmptyString => EmptyString
  | String c r => String (lower c) (lower_string r)
  end.

Fixpoint contains_char (c : ascii) (s : string) : bool :=
  match s with
  | EmptyString => false
  | String d r => ascii_eqb c d || contains_char c r
  end.

Fixpoint join (sep : string) (l : list string) : string :=
  match l with
  | [] => ""
  | [x] => x
  | x :: r => x ++ sep ++ join sep r
  end.

(** The decimal numeral of an integer, written exactly. *)
Definition Z_decimal (z : Z) : string :=
  NilEmpty.string_of_int (Z.to_int z).

(** ** JavaScript numbers

    A double in canonical form: NaN, an integer, a non-integer dyadic
    rational [m * 2^e] ([e < 0], [m] odd) or an infinity.  Negative zero
    is identified with zero: the code only prints numbers, compares them
    and tests their truthiness, where the two agree. *)
Inductive num : Type :=
| NaN
| Int (z : Z)
| Dyadic (m : Z) (e : Z)
| Infinity (neg : bool).

Coercion Int : Z >-> num.

Definition ge_pow2 (a b e : Z) : bool :=
  if 0 <=? e then b * 2 ^ e <=? a else b <=? a * 2 ^ (- e).

Definition trailing_zeros (n : Z) : Z := Z.log2 (Z.land n (- n)).

(** [n * 2^q] in canonical form, for [n >= 0]. *)
Definition dyadic_canon (n q : Z) : num :=
  if n =? 0 then Int 0
  else if 0 <=? q then Int (n * 2 ^ q)
  else let t := Z.min (trailing_zeros n) (- q) in
       let q1 := q + t in
       if q1 =? 0 then Int (n / 2 ^ t) else Dyadic (n / 2 ^ t) q1.

(** The double nearest to [a / b] ([a, b > 0]), ties to even: 53
    significant bits, subnormals below [2^-1022], infinity from [2^1024]
    on.  An integer up to [2^53] is a double as it is. *)
Definition round_ratio (a b : Z) : num :=
  if (b =? 1) && (a <=? 2 ^ 53) then Int a else
  let e0 := Z.log2 a - Z.log2 b in
  let e := if ge_pow2 a b e0 then e0 else e0 - 1 in
  let q := Z.max (e - 52) (-1074) in
  let N := if q <? 0 then a * 2 ^ (- q) else a in
  let D := if q <? 0 then b else b * 2 ^ q in
  let n := N / D in
  let r := N mod D in
  let n' := if (D <? 2 * r) || ((2 * r =? D) && Z.odd n) then n + 1 else n in
  if 1024 <=? Z.log2 n' + q then Infinity false else dyadic_canon n' q.

Definition num_neg (x : num) : num :=
  match x with
  | NaN => NaN
  | Int z => Int (- z)
  | Dyadic m e => Dyadic (- m) e
  | Infinity b => Infinity (negb b)
  end.

(** The double nearest to [(-1)^neg * a / b], for [a >= 0] and [b > 0]. *)
Definition num_of_ratio (neg : bool) (a b : Z) : num :=
  if a =? 0 then Int 0
  else let x := round_ratio a b in if neg then num_neg x else x.

(** The double nearest to an integer. *)
Definition num_of_Z (z : Z) : num := num_of_ratio (z <? 0) (Z.abs z) 1.

(** The double nearest to [(-1)^neg * m * 10^p] ([m >= 0]). *)
Definition num_of_decimal (neg : bool) (m p : Z) : num :=
  if m =? 0 then Int 0
  else if 0 <=? p then
    (if 309 <? p then Infinity neg else num_of_ratio neg (m * 10 ^ p) 1)
  else if Z.log2 m + 331 <? - p then Int 0
  else num_of_ratio neg m (10 ^ (- p)).

(** A finite double as a fraction [(a, b)] with [b > 0]. *)
Definition num_ratio (x : num) : option (Z * Z) :=
  match x with
  | Int z => Some (z, 1)
  | Dyadic m e => Some (m, 2 ^ (- e))
  | _ => None
  end.

Definition num_eqb (x y : num) : bool :=
  match x, y with
  | NaN, NaN => true
  | Int a, Int b => a =? b
  | Dyadic m e, Dyadic m' e' => (m =? m') && (e =? e')
  | Infinity a, Infinity b => Bool.eqb a b
  | _, _ => false
  end.

(** The numeric order; [None] when NaN is involved. *)
Definition num_compare (x y : num) : option comparison :=
  match x, y with
  | NaN, _ | _, NaN => None
  | Infinity a, Infinity b => Some (if Bool.eqb a b then Eq else if a then Lt else Gt)
  | Infinity a, _ => Some (if a then Lt else Gt)
  | _, Infinity b => Some (if b then Gt else Lt)
  | _, _ =>
      match num_ratio x, num_ratio y with
      | Some (a1, b1), Some (a2, b2) => Some (Z.compare (a1 * b2) (a2 * b1))
      | _, _ => None
      end
  end.

(** [x < y] and [x <= y]. *)
Definition num_lt (x y : num) : bool :=
  match num_compare x y with Some Lt => true | _ => false end.

Definition num_le (x y : num) : bool :=
  match num_compare x y with Some Lt | Some Eq => true | _ => false end.

(** [x + y], rounded. *)
Definition num_add (x y : num) : num :=
  match x, y with
  | NaN, _ | _, NaN => NaN
  | Infinity a, Infinity b => if Bool.eqb a b then Infinity a else NaN
  | Infinity a, _ => Infinity a
  | _, Infinity b => Infinity b
  | _, _ =>
      match num_ratio x, num_ratio y with
      | Some (a1, b1), Some (a2, b2) =>
          let s := a1 * b2 + a2 * b1 in num_of_ratio (s <? 0) (Z.abs s) (b1 * b2)
      | _, _ => NaN
      end
  end.

(** [Math.min(x, y)]. *)
Definition num_min (x y : num) : num :=
  match num_compare x y with None => NaN | Some Gt => y | Some _ => x end.

(** ToBoolean of a number: false for NaN and zero. *)
Definition num_truthy (x : num) : bool :=
  match x with
  | NaN => false
  | Int z => negb (z =? 0)
  | Dyadic _ _ | Infinity _ => true
  end.

(** *** [Number::toString] (ECMA-262 6.1.6.1.20)

    For a positive finite double [x = a / b]: [n] with
    [10^(n-1) <= x < 10^n], then the fewest digits [k] and the integer [s]
    with [k] digits such that [s * 10^(n-k)] reads back as [x], the
    closest to [x] among them (ties to even), then the layout of steps 6
    to 10. *)
Definition ge_pow10 (a b p : Z) : bool :=
  if 0 <=? p then b * 10 ^ p <=? a else b <=? a * 10 ^ (- p).

Fixpoint exp10_up (fuel : nat) (a b n : Z) : Z :=
  match fuel with
  | O => n
  | S f => if ge_pow10 a b n then exp10_up f a b (n + 1) else n
  end.

Fixpoint exp10_down (fuel : nat) (a b n : Z) : Z :=
  match fuel with
  | O => n
  | S f => if ge_pow10 a b (n - 1) then n else exp10_down f a b (n - 1)
  end.

(** [n] with [10^(n-1) <= a/b < 10^n], from the estimate
    [log10 2 ~ 0.30103] of the binary exponent. *)
Definition decimal_exponent (a b : Z) : Z :=
  let est := (Z.log2 a - Z.log2 b) * 30103 / 100000 in
  exp10_down 8 a b (exp10_up 8 a b est).

(** [floor(a / b / 10^q)]. *)
Definition floor_scaled (a b q : Z) : Z :=
  if 0 <=? q then a / (b * 10 ^ q) else a * 10 ^ (- q) / b.

(** [a / b] against the midpoint [(s + 1/2) * 10^q]. *)
Definition cmp_mid (a b s q : Z) : comparison :=
  if 0 <=? q then Z.compare (2 * a) ((2 * s + 1) * 10 ^ q * b)
  else Z.compare (2 * a * 10 ^ (- q)) ((2 * s + 1) * b).

(** The [k]-digit candidates below and above [x]: any other one is
    further from [x], and the doubles reading back as [x] form an interval
    around it. *)
Definition shortest_step (x : num) (a b n k : Z) : option (Z * Z) :=
  let q := n - k in
  let lo := floor_scaled a b q in
  let hi := lo + 1 in
  let ok_lo := num_eqb (num_of_decimal false lo q) x in
  let ok_hi := num_eqb (num_of_decimal false hi q) x in
  let take_hi :=
    if ok_lo && ok_hi then
      match cmp_mid a b lo q with Lt => false | Gt => true | Eq => Z.odd lo end
    else ok_hi in
  if take_hi then Some (if hi =? 10 ^ k then (10 ^ (k - 1), n + 1) else (hi, n))
  else if ok_lo then Some (lo, n) else None.

(** Seventeen digits always suffice for a double. *)
Fixpoint shortest_loop (fuel : nat) (x : num) (a b n k : Z) : Z * Z :=
  match fuel with
  | O => (floor_scaled a b (n - k), n)
  | S f =>
      match shortest_step x a b n k with
      | Some r => r
      | None => shortest_loop f x a b n (k + 1)
      end
  end.

Fixpoint zeros (n : nat) : string :=
  match n with O => "" | S m => String "0"%char (zeros m) end.

(** Steps 6 to 10: the digits [s] (with [k] digits) and the exponent [n]. *)
Definition format_decimal (s n : Z) : string :=
  let digits := Z_decimal s in
  let k := Z.of_nat (String.length digits) in
  if (k <=? n) && (n <=? 21) then digits ++ zeros (Z.to_nat (n - k))
  else if (0 <? n) && (n <=? 21) then
    substring 0 (Z.to_nat n) digits ++ "." ++ substring (Z.to_nat n) (Z.to_nat (k - n)) digits
  else if (-6 <? n) && (n <=? 0) then "0." ++ zeros (Z.to_nat (- n)) ++ digits
  else
    let e := n - 1 in
    let exp := "e" ++ (if e <? 0 then "-" else "+") ++ Z_decimal (Z.abs e) in
    if k =? 1 then digits ++ exp
    else substring 0 1 digits ++ "." ++ substring 1 (Z.to_nat (k - 1)) digits ++ exp.

(** [String(x)] of a number. *)
Definition num_to_string (x : num) : string :=
  match x with
  | NaN => "NaN"
  | Infinity false => "Infinity"
  | Infinity true => "-Infinity"
  | _ =>
      match num_ratio x with
      | Some (a, b) =>
          if a =? 0 then "0"
          else
            let '(s, n) := shortest_loop 17 (if a <? 0 then num_neg x else x) (Z.abs a) b
                             (decimal_exponent (Z.abs a) b) 1 in
            (if a <? 0 then "-" else "") ++ format_decimal s n
      | None => "NaN"
      end
  end.

(** [String(n)] for an integer-valued number (a status code, a job
    identifier). *)
Definition Z_to_string (z : Z) : string := num_to_string (num_of_Z z).

(** ** JavaScript values

    The values the client handles are those [JSON.parse] produces. *)
Inductive json : Type :=
| JNull
| JBool (b : bool)
| JNum (n : num)
| JStr (s : string)
| JArr (l : list json)
| JObj (fields : list (string * json)).

(** A JavaScript value: [None] is [undefined]. *)
Definition jsval := option json.

(** JavaScript truthiness (ToBoolean) of JSON values. *)
Definition truthy (v : json) : bool :=
  match v with
  | JNull => false
  | JBool b => b
  | JNum n => num_truthy n
  | JStr s => negb (String.eqb s "")
  | JArr _ | JObj _ => true
  end.

Definition truthy_val (v : jsval) : bool :=
  match v with None => false | Some j => truthy j end.

(** ToBoolean of an optional string ([undefined] or [null] are falsy, as is
    the empty string). *)
Definition truthy_str (s : option string) : bool :=
  match s with None => false | Some s => negb (String.eqb s "") end.

(** ToString.  Arrays are joined with [","], [null] elements giving the
    empty string; plain objects give ["[object Object]"] (a JSON object with
    its own [toString] key would make the conversion throw; no such body is
    considered here). *)
Fixpoint to_string (v : json) : string :=
  match v with
  | JNull => "null"
  | JBool true => "true"
  | JBool false => "false"
  | JNum n => num_to_string n
  | JStr s => s
  | JArr l =>
      join "," (map (fun x => match x with JNull => "" | _ => to_string x end) l)
  | JObj _ => "[object Object]"
  end.

Definition val_to_string (v : jsval) : string :=
  match v with None => "undefined" | Some j => to_string j end.

(** Last binding of a key: [JSON.parse] keeps the last duplicate. *)
Fixpoint assoc_last (k : string) (fs : list (string * json)) : option json :=
  match fs with
  | [] => None
  | (k', v) :: r =>
      match assoc_last k r with
      | Some w => Some w
      | None => if String.eqb k k' then Some v else None
      end
  end.

(** ** Errors thrown by the client

    The error classes live in [utils/errors.ts], which is not part of the
    sources; [GitLabApiError] keeps the message value exactly as the client
    passes it. *)
Inductive error : Type :=
| AuthenticationError (message : string)
| RateLimitError (message : string) (retryAfterSeconds : num)
| GitLabApiError (message : json) (status : Z)
| TypeError (message : string)
| SyntaxError (message : string)
| PlainError (message : string).

Inductive result (A : Type) : Type :=
| Ok (a : A)
| Throw (e : error).
Arguments Ok {A} a.
Arguments Throw {A} e.

(** The length of a string in UTF-16 code units, from its UTF-8 bytes:
    one per character, two for a character beyond the BMP (four-byte
    sequence). *)
Fixpoint utf16_length (s : string) : nat :=
  match s with
  | EmptyString => 0
  | String c r =>
      let n := nat_of_ascii c in
      ((if (n <? 128)%nat then 1 else if (n <? 192)%nat then 0
        else if (n <? 240)%nat then 1 else 2) + utf16_length r)%nat
  end.

(** Property read [v.k] for the keys the client reads ([message],
    [error], [username], [length]); reading from [undefined] or [null]
    throws a TypeError. *)
Definition js_get (v : jsval) (k : string) : result jsval :=
  match v with
  | None => Throw (TypeError ("Cannot read properties of undefined (reading '" ++ k ++ "')"))
  | Some JNull => Throw (TypeError ("Cannot read properties of null (reading '" ++ k ++ "')"))
  | Some (JObj fs) => Ok (assoc_last k fs)
  | Some (JArr l) =>
      Ok (if String.eqb k "length" then Some (JNum (Int (Z.of_nat (List.length l)))) else None)
  | Some (JStr s) =>
      Ok (if String.eqb k "length" then Some (JNum (Int (Z.of_nat (utf16_length s)))) else None)
  | Some (JNum _) | Some (JBool _) => Ok None
  end.

(** ** [JSON.parse]

    A recursive-descent parser over the JSON grammar (ECMA-404), with
    fuel. *)
Definition is_json_ws (c : ascii) : bool :=
  ascii_eqb c " " || ascii_eqb c (ascii_of_nat 9) || ascii_eqb c (ascii_of_nat 10)
  || ascii_eqb c (ascii_of_nat 13).

Fixpoint skip_ws (s : string) : string :=
  match s with
  | String c r => if is_json_ws c then skip_ws r else s
  | EmptyString => s
  end.

Fixpoint strip_prefix (p s : string) : option string :=
  match p, s with
  | EmptyString, _ => Some s
  | String a p', String b s' => if ascii_eqb a b then strip_prefix p' s' else None
  | _, _ => None
  end.

Definition hex_value (c : ascii) : option Z :=
  let n := nat_of_ascii c in
  if is_digit c then Some (digit_value c)
  else if (97 <=? n)%nat && (n <=? 102)%nat then Some (Z.of_nat n - 87)
  else if (65 <=? n)%nat && (n <=? 70)%nat then Some (Z.of_nat n - 55)
  else None.

Definition hex4 (h1 h2 h3 h4 : ascii) : option Z :=
  match hex_value h1, hex_value h2, hex_value h3, hex_value h4 with
  | Some a, Some b, Some c, Some d => Some (((a * 16 + b) * 16 + c) * 16 + d)
  | _, _, _, _ => None
  end.

Definition byte_of (n : Z) : ascii := ascii_of_nat (Z.to_nat n).

(** The UTF-8 bytes of a code point (below [0x110000]). *)
Definition utf8_encode (cp : Z) : string :=
  if cp <? 128 then String (byte_of cp) ""
  else if cp <? 2048 then
    String (byte_of (192 + cp / 64)) (String (byte_of (128 + cp mod 64)) "")
  else if cp <? 65536 then
    String (byte_of (224 + cp / 4096))
      (String (byte_of (128 + (cp / 64) mod 64)) (String (byte_of (128 + cp mod 64)) ""))
  else
    String (byte_of (240 + cp / 262144))
      (String (byte_of (128 + (cp / 4096) mod 64))
         (String (byte_of (128 + (cp / 64) mod 64)) (String (byte_of (128 + cp mod 64)) ""))).

Definition prepend (p : string) (o : option (string * string)) : option (string * string) :=
  match o with Some (t, rest) => Some (p ++ t, rest) | None => None end.

Local Open Scope char_scope.

(** Body of a string literal, after the opening quote.  A [\u] escape of
    a high surrogate followed by one of a low surrogate is one character. *)
Fixpoint json_string_body (s : string) : option (string * string) :=
  match s with
  | EmptyString => None
  | String c r =>
      if ascii_eqb c dq then Some (EmptyString, r)
      else if (nat_of_ascii c <? 32)%nat then None
      else if ascii_eqb c "\" then
        match r with
        | String e r' =>
            if ascii_eqb e dq then prepend (String dq EmptyString) (json_string_body r')
            else if ascii_eqb e "\" then prepend "\"%string (json_string_body r')
            else if ascii_eqb e "/" then prepend "/"%string (json_string_body r')
            else if ascii_eqb e "b" then prepend (String (ascii_of_nat 8) EmptyString) (json_string_body r')
            else if ascii_eqb e "f" then prepend (String (ascii_of_nat 12) EmptyString) (json_string_body r')
            else if ascii_eqb e "n" then prepend (String (ascii_of_nat 10) EmptyString) (json_string_body r')
            else if ascii_eqb e "r" then prepend (String (ascii_of_nat 13) EmptyString) (json_string_body r')
            else if ascii_eqb e "t" then prepend (String (ascii_of_nat 9) EmptyString) (json_string_body r')
            else if ascii_eqb e "u" then
              match r' with
              | String h1 (String h2 (String h3 (String h4 r''))) =>
                  match hex4 h1 h2 h3 h4 with
                  | None => None
                  | Some code =>
                      if ((55296 <=? code) && (code <=? 56319))%Z then
                        match r'' with
                        | String b1 (String b2 (String k1 (String k2 (String k3 (String k4 r3))))) =>
                            match hex4 k1 k2 k3 k4 with
                            | Some low =>
                                if ascii_eqb b1 "\" && ascii_eqb b2 "u"
                                   && ((56320 <=? low) && (low <=? 57343))%Z
                                then prepend (utf8_encode (65536 + (code - 55296) * 1024
                                                           + (low - 56320))%Z)
                                       (json_string_body r3)
                                else prepend (utf8_encode code) (json_string_body r'')
                            | None => prepend (utf8_encode code) (json_string_body r'')
                            end
                        | _ => prepend (utf8_encode code) (json_string_body r'')
                        end
                      else prepend (utf8_encode code) (json_string_body r'')
                  end
              | _ => None
              end
            else None
        | EmptyString => None
        end
      else prepend (String c EmptyString) (json_string_body r)
  end.

(** Digits of a number, accumulated. *)
Fixpoint json_digits (s : string) (acc : Z) : Z * string :=
  match s with
  | String c r => if is_digit c then json_digits r (acc * 10 + digit_value c) else (acc, s)
  | EmptyString => (acc, s)
  end.

(** The longest prefix of decimal digits, and the rest. *)
Fixpoint digit_run (s : string) : string * string :=
  match s with
  | String c r =>
      if is_digit c then let '(d, t) := digit_run r in (String c d, t) else (""%string, s)
  | EmptyString => (""%string, s)
  end.

(** The value of a string of decimal digits, read left to right. *)
Definition decimal_value (s : string) : Z :=
  fold_left (fun acc c => acc * 10 + digit_value c) (list_ascii_of_string s) 0.

(** [-? (0 | [1-9][0-9]* ) (. [0-9]+)? ([eE] [+-]? [0-9]+)?], read as the
    double nearest to its decimal value. *)
Definition json_number (s : string) : option (json * string) :=
  let '(neg, s1) := match s with
                    | String "-" r => (true, r)
                    | _ => (false, s)
                    end in
  match s1 with
  | EmptyString => None
  | String c r =>
      if negb (is_digit c) then None else
      let '(intd, rest1) := if ascii_eqb c "0" then ("0"%string, r) else digit_run s1 in
      let frac := match rest1 with
                  | String "." r2 =>
                      let '(d, t) := digit_run r2 in
                      if String.eqb d ""%string then None else Some (d, t)
                  | _ => Some (""%string, rest1)
                  end in
      match frac with
      | None => None
      | Some (fracd, rest2) =>
          let expo := match rest2 with
                      | String e r3 =>
                          if ascii_eqb e "e" || ascii_eqb e "E" then
                            let '(eneg, r4) := match r3 with
                                               | String "-" r => (true, r)
                                               | String "+" r => (false, r)
                                               | _ => (false, r3)
                                               end in
                            let '(d, t) := digit_run r4 in
                            if String.eqb d ""%string then None
                            else Some ((if eneg then - decimal_value d else decimal_value d)%Z, t)
                          else Some (0%Z, rest2)
                      | EmptyString => Some (0%Z, rest2)
                      end in
          match expo with
          | None => None
          | Some (ex, rest3) =>
              Some (JNum (num_of_decimal neg (decimal_value (intd ++ fracd))
                                         (ex - Z.of_nat (String.length fracd))%Z), rest3)
          end
      end
  end.

Local Close Scope char_scope.

Fixpoint json_value (fuel : nat) (s : string) : option (json * string) :=
  match fuel with
  | O => None
  | S f =>
      let s := skip_ws s in
      match s with
      | String "n"%char _ => option_map (fun r => (JNull, r)) (strip_prefix "null" s)
      | String "t"%char _ => option_map (fun r => (JBool true, r)) (strip_prefix "true" s)
      | String "f"%char _ => option_map (fun r => (JBool false, r)) (strip_prefix "false" s)
      | String "["%char r =>
          match skip_ws r with
          | String "]"%char r' => Some (JArr [], r')
          | _ => option_map (fun '(l, r') => (JArr l, r')) (json_elements f r)
          end
      | String "{"%char r =>
          match skip_ws r with
          | String "}"%char r' => Some (JObj [], r')
          | _ => option_map (fun '(l, r') => (JObj l, r')) (json_members f r)
          end
      | String c r =>
          if ascii_eqb c dq
          then option_map (fun '(t, r') => (JStr t, r')) (json_string_body r)
          else json_number s
      | EmptyString => None
      end
  end
with json_elements (fuel : nat) (s : string) : option (list json * string) :=
  match fuel with
  | O => None
  | S f =>
      match json_value f s with
      | None => None
      | Some (v, r) =>
          match skip_ws r with
          | String ","%char r' => option_map (fun '(l, r'') => (v :: l, r'')) (json_elements f r')
          | String "]"%char r' => Some ([v], r')
          | _ => None
          end
      end
  end
with json_members (fuel : nat) (s : string) : option (list (string * json) * string) :=
  match fuel with
  | O => None
  | S f =>
      match skip_ws s with
      | String c r =>
          if negb (ascii_eqb c dq) then None else
          match json_string_body r with
          | None => None
          | Some (k, r1) =>
              match skip_ws r1 with
              | String ":"%char r2 =>
                  match json_value f r2 with
                  | None => None
                  | Some (v, r3) =>
                      match skip_ws r3 with
                      | String ","%char r4 =>
                          option_map (fun '(l, r5) => ((k, v) :: l, r5)) (json_members f r4)
                      | String "}"%char r4 => Some ([(k, v)], r4)
                      | _ => None
                      end
                  end
              | _ => None
              end
          end
      | _ => None
      end
  end.

(** [JSON.parse(text)]: [None] when it throws a SyntaxError.  Every nested
    call of the parser consumes a character or is followed by one that
    does, so twice the length plus two is enough fuel. *)
Definition JSON_parse (text : string) : option json :=
  match json_value (2 * String.length text + 2) text with
  | Some (v, rest) =>
      match skip_ws rest with EmptyString => Some v | _ => None end
  | None => None
  end.

(** ** [parseInt(s, 10)]

    Leading white space ([StrWhiteSpaceChar]: the ASCII spaces, NBSP,
    BOM, the Unicode space separators and the line terminators) is
    skipped, an optional sign is read, then the longest run of decimal
    digits; no digit gives NaN.  The result is the double nearest to the
    digits' value (the correctly rounded choice, which V8 makes). *)
Definition is_js_space (c : ascii) : bool :=
  let n := nat_of_ascii c in
  Nat.eqb n 32 || ((9 <=? n)%nat && (n <=? 13)%nat).

(** The three-byte UTF-8 sequences of U+1680, U+2000 to U+200A, U+2028,
    U+2029, U+202F, U+205F, U+3000 and U+FEFF. *)
Definition is_js_space3 (a b c : ascii) : bool :=
  let a := nat_of_ascii a in
  let b := nat_of_ascii b in
  let c := nat_of_ascii c in
  (Nat.eqb a 225 && Nat.eqb b 154 && Nat.eqb c 128)
  || (Nat.eqb a 226 && Nat.eqb b 128
      && (((128 <=? c)%nat && (c <=? 138)%nat) || Nat.eqb c 168 || Nat.eqb c 169
          || Nat.eqb c 175))
  || (Nat.eqb a 226 && Nat.eqb b 129 && Nat.eqb c 159)
  || (Nat.eqb a 227 && Nat.eqb b 128 && Nat.eqb c 128)
  || (Nat.eqb a 239 && Nat.eqb b 187 && Nat.eqb c 191).

Fixpoint trim_start (s : string) : string :=
  match s with
  | String c r =>
      if is_js_space c then trim_start r
      else match r with
           | String c2 r2 =>
               if Nat.eqb (nat_of_ascii c) 194 && Nat.eqb (nat_of_ascii c2) 160
               then trim_start r2
               else match r2 with
                    | String c3 r3 => if is_js_space3 c c2 c3 then trim_start r3 else s
                    | EmptyString => s
                    end
           | EmptyString => s
           end
  | EmptyString => s
  end.

Definition parseInt10 (s : string) : num :=
  let s := trim_start s in
  let '(neg, s) := match s with
                   | String "-"%char r => (true, r)
                   | String "+"%char r => (false, r)
                   | _ => (false, s)
                   end in
  match s with
  | String c _ => if is_digit c then num_of_ratio neg (fst (json_digits s 0)) 1 else NaN
  | EmptyString => NaN
  end.
(** ** Headers

    The Fetch API's [Headers.get]: names compare case-insensitively, and
    the values of several headers of the same name are joined by [", "]. *)
Definition headers := list (string * string).

Definition headers_get (h : headers) (name : string) : option string :=
  match map snd (filter (fun kv => String.eqb (lower_string (fst kv)) (lower_string name)) h) with
  | [] => None
  | vs => Some (join ", " vs)
  end.

(** A plain object of header fields, and the object spread [{...a, ...b}]:
    a key of [b] overrides the one of [a] in place, new keys come last. *)
Fixpoint set_field (k v : string) (h : headers) : headers :=
  match h with
  | [] => [(k, v)]
  | (k', v') :: r => if String.eqb k k' then (k, v) :: r else (k', v') :: set_field k v r
  end.

Definition spread (a b : headers) : headers :=
  fold_left (fun acc kv => set_field (fst kv) (snd kv) acc) b a.

(** ** Tenant credentials ([part_003]) *)
Record TenantCredentials := {
  privateToken : option string;
  baseUrl : option string;
  accessToken : option string
}.

(** [headers.get(name) || undefined]: the empty string is dropped too. *)
Definition or_undefined (v : option string) : option string :=
  if truthy_str v then v else None.

Definition parseTenantCredentials (h : headers) : TenantCredentials := {|
  privateToken := or_undefined (headers_get h "X-GitLab-Token");
  baseUrl := or_undefined (headers_get h "X-GitLab-Base-URL");
  accessToken := or_undefined (headers_get h "X-GitLab-Access-Token")
|}.

Definition validateCredentials (c : TenantCredentials) : result unit :=
  if negb (truthy_str (privateToken c)) && negb (truthy_str (accessToken c)) then
    Throw (PlainError
      "Missing credentials. Provide either X-GitLab-Token or X-GitLab-Access-Token header.")
  else Ok tt.

(** ** Outbound HTTP and the request monad

    A computation threads the log of the requests handed to [fetch]; the
    transport answers a request with a response or rejects (network
    failure). *)
Record fetch_request := {
  f_url : string;
  f_method : string;
  f_headers : headers;
  f_body : option string
}.

(** A response.  [syntax_error_message] is the message of the SyntaxError
    that the runtime's [JSON.parse] throws on this body when it is not JSON
    text: the engine words it (V8: "Unexpected end of JSON input",
    "Unexpected token ... is not valid JSON"), so it is given with the
    response rather than fixed here. *)
Record response := {
  status : Z;
  resp_headers : headers;
  body : string;
  syntax_error_message : string
}.

(** [response.ok]. *)
Definition ok (r : response) : bool := (200 <=? status r) && (status r <=? 299).

Definition transport := fetch_request -> result response.

Definition M (A : Type) := list fetch_request -> result A * list fetch_request.

Definition ret {A} (a : A) : M A := fun s => (Ok a, s).
Definition raise {A} (e : error) : M A := fun s => (Throw e, s).
Definition lift {A} (r : result A) : M A := fun s => (r, s).
Definition bind {A B} (m : M A) (k : A -> M B) : M B :=
  fun s => match m s with
           | (Ok a, s') => k a s'
           | (Throw e, s') => (Throw e, s')
           end.

Notation "x <- m ;; k" := (bind m (fun x => k))
  (at level 61, m at next level, right associativity).

Definition fetch (tr : transport) (req : fetch_request) : M response :=
  fun s => (tr req, (s ++ [req])%list).

(** [RequestInit] as the client methods pass it. *)
Record RequestInit := {
  method : string;
  init_headers : headers;
  init_body : option string
}.

Definition default_init : RequestInit := {| method := "GET"; init_headers := []; init_body := None |}.

(** ** [GitLabClientImpl] ([entities.ts]) *)
Definition DEFAULT_API_BASE_URL : string := "https://gitlab.com/api/v4".

Record GitLabClient := {
  credentials : TenantCredentials;
  client_baseUrl : string
}.

(** [constructor] / [createGitLabClient]: [credentials.baseUrl || DEFAULT_API_BASE_URL]. *)
Definition createGitLabClient (c : TenantCredentials) : GitLabClient := {|
  credentials := c;
  client_baseUrl :=
    match baseUrl c with
    | Some u => if truthy_str (Some u) then u else DEFAULT_API_BASE_URL
    | None => DEFAULT_API_BASE_URL
    end
|}.

Definition getAuthHeaders (cl : GitLabClient) : result headers :=
  match or_undefined (accessToken (credentials cl)), or_undefined (privateToken (credentials cl)) with
  | Some t, _ => Ok [("Authorization", "Bearer " ++ t); ("Content-Type", "application/json")]
  | None, Some p => Ok [("PRIVATE-TOKEN", p); ("Content-Type", "application/json")]
  | None, None =>
      Throw (AuthenticationError
        "No credentials provided. Include X-GitLab-Token or X-GitLab-Access-Token header.")
  end.

(** [a || b] on a JavaScript value with a JSON fallback. *)
Definition or_else (v : jsval) (d : json) : json :=
  match v with
  | Some j => if truthy j then j else d
  | None => d
  end.

(** The message of a [GitLabApiError]:
    [let message = `API error: ${status}`;
     try { const errorJson = JSON.parse(errorBody);
           message = errorJson.message || errorJson.error || message; }
     catch { }] *)
Definition api_error_message (st : Z) (errorBody : string) : json :=
  let message := JStr ("API error: " ++ Z_to_string st) in
  match JSON_parse errorBody with
  | None => message
  | Some errorJson =>
      match js_get (Some errorJson) "message" with
      | Throw _ => message
      | Ok m =>
          if truthy_val m then or_else m message
          else match js_get (Some errorJson) "error" with
               | Throw _ => message
               | Ok e => or_else e message
               end
      end
  end.

(** The status checks, written identically in [request] (lines 1087-1106)
    and in [requestWithPagination] (lines 1136-1155). *)
Definition check_status (r : response) : result unit :=
  if status r =? 429 then
    let retryAfter := headers_get (resp_headers r) "Retry-After" in
    Throw (RateLimitError "Rate limit exceeded"
             (match retryAfter with
              | Some v => if truthy_str (Some v) then parseInt10 v else Int 60
              | None => Int 60
              end))
  else if (status r =? 401) || (status r =? 403) then
    Throw (AuthenticationError "Authentication failed. Check your GitLab credentials.")
  else if negb (ok r) then
    Throw (GitLabApiError (api_error_message (status r) (body r)) (status r))
  else Ok tt.

(** [response.json()]. *)
Definition response_json (r : response) : result json :=
  match JSON_parse (body r) with
  | Some j => Ok j
  | None => Throw (SyntaxError (syntax_error_message r))
  end.

(** [PaginationParams]: [perPage?: number; page?: number]. *)
Record PaginationParams := {
  perPage : option num;
  page : option num
}.

Record PaginatedResponse := {
  items : json;
  count : jsval;
  total : option num;
  hasMore : bool;
  pr_page : option num;
  nextPage : option num;
  totalPages : option num
}.

(** The truthiness of an optional number. *)
Definition truthy_opt_num (n : option num) : bool :=
  match n with Some m => num_truthy m | None => false end.

(** The value of a present optional number. *)
Definition num_or_zero (n : option num) : num :=
  match n with Some m => m | None => Int 0 end.

Section Executors.

Variable tr : transport.
Variable cl : GitLabClient.

(** [request<T>(endpoint, options)]: [undefined] on 204. *)
Definition request (endpoint : string) (options : RequestInit) : M jsval :=
  let url := client_baseUrl cl ++ endpoint in
  auth <- lift (getAuthHeaders cl) ;;
  r <- fetch tr {| f_url := url; f_method := method options;
                   f_headers := spread auth (init_headers options);
                   f_body := init_body options |} ;;
  _ <- lift (check_status r) ;;
  if status r =? 204 then ret None
  else j <- lift (response_json r) ;; ret (Some j).

(** [h ? parseInt(h, 10) : undefined] for a response header. *)
Definition header_num (r : response) (name : string) : option num :=
  match headers_get (resp_headers r) name with
  | Some v => if truthy_str (Some v) then Some (parseInt10 v) else None
  | None => None
  end.

(** [new URLSearchParams()] with [per_page] and [page], as a query string. *)
Definition pagination_query (params : option PaginationParams) : string :=
  match params with
  | None => ""
  | Some p =>
      join "&"
        (app (if truthy_opt_num (perPage p)
              then ["per_page=" ++ num_to_string (num_or_zero (perPage p))]
              else [])
             (if truthy_opt_num (page p)
              then ["page=" ++ num_to_string (num_or_zero (page p))]
              else []))
  end.

Definition requestWithPagination (endpoint : string) (params : option PaginationParams)
    (options : RequestInit) : M PaginatedResponse :=
  let separator := if contains_char "?"%char endpoint then "&" else "?" in
  let queryString := pagination_query params in
  let url := client_baseUrl cl ++ endpoint
             ++ (if String.eqb queryString "" then "" else separator ++ queryString) in
  auth <- lift (getAuthHeaders cl) ;;
  r <- fetch tr {| f_url := url; f_method := method options;
                   f_headers := spread auth (init_headers options);
                   f_body := init_body options |} ;;
  _ <- lift (check_status r) ;;
  its <- lift (response_json r) ;;
  cnt <- lift (js_get (Some its) "length") ;;
  let total := header_num r "X-Total" in
  let totalPages := header_num r "X-Total-Pages" in
  let nextPage := header_num r "X-Next-Page" in
  ret {| items := its;
         count := cnt;
         total := total;
         totalPages := totalPages;
         hasMore := match nextPage with Some _ => true | None => false end;
         pr_page := None;
         nextPage := nextPage |}.

End Executors.

(** ** [encodeURIComponent]

    Applied to the UTF-8 bytes of the string: the unreserved characters
    [A-Z a-z 0-9 - _ . ! ~ * ' ( )] are kept, every other byte becomes
    [%XY] with upper-case hexadecimal digits. *)
Definition uri_unreserved (c : ascii) : bool :=
  let n := nat_of_ascii c in
  is_digit c || ((65 <=? n)%nat && (n <=? 90)%nat) || ((97 <=? n)%nat && (n <=? 122)%nat)
  || contains_char c "-_.!~*'()".

Definition hex_digit (n : nat) : ascii :=
  if (n <? 10)%nat then ascii_of_nat (48 + n) else ascii_of_nat (55 + n).

Fixpoint encodeURIComponent (s : string) : string :=
  match s with
  | EmptyString => EmptyString
  | String c r =>
      if uri_unreserved c then String c (encodeURIComponent r)
      else String "%"%char
             (String (hex_digit (nat_of_ascii c / 16))
                (String (hex_digit (nat_of_ascii c mod 16)) (encodeURIComponent r)))
  end.

(** A project or group identifier, [string | number]. *)
Inductive Id : Type :=
| IdStr (s : string)
| IdNum (n : Z).

(** [String(id)]. *)
Definition String_of_Id (i : Id) : string :=
  match i with IdStr s => s | IdNum n => Z_to_string n end.

(** ** The query strings of the list methods ([entities.ts])

    [toSnakeCase(str)]: [str.replace(/[A-Z]/g, l => `_${l.toLowerCase()}`)]. *)
Definition is_upper (c : ascii) : bool :=
  let n := nat_of_ascii c in (65 <=? n)%nat && (n <=? 90)%nat.

Fixpoint toSnakeCase (s : string) : string :=
  match s with
  | EmptyString => EmptyString
  | String c r =>
      if is_upper c then String "_"%char (String (lower c) (toSnakeCase r))
      else String c (toSnakeCase r)
  end.

(** [URLSearchParams.set(name, value)]: the first pair of that name takes
    the value and the later ones are removed; a new name is appended. *)
Fixpoint usp_set (k v : string) (l : list (string * string)) : list (string * string) :=
  match l with
  | [] => [(k, v)]
  | (k', v') :: r =>
      if String.eqb k k' then (k, v) :: filter (fun kv => negb (String.eqb (fst kv) k)) r
      else (k', v') :: usp_set k v r
  end.

(** The [application/x-www-form-urlencoded] byte serializer of
    [URLSearchParams.toString()]: [* - . _], digits and letters are kept, a
    space becomes ['+'], every other byte [%XY]. *)
Definition form_unreserved (c : ascii) : bool :=
  let n := nat_of_ascii c in
  is_digit c || is_upper c || ((97 <=? n)%nat && (n <=? 122)%nat) || contains_char c "*-._".

Fixpoint form_urlencode (s : string) : string :=
  match s with
  | EmptyString => EmptyString
  | String c r =>
      if form_unreserved c then String c (form_urlencode r)
      else if ascii_eqb c " "%char then String "+"%char (form_urlencode r)
      else String "%"%char
             (String (hex_digit (nat_of_ascii c / 16))
                (String (hex_digit (nat_of_ascii c mod 16)) (form_urlencode r)))
  end.


(** A parameters object as [Object.entries] lists it: a present key may
    hold [undefined] ([None]). *)
Definition js_object := list (string * jsval).

(** The pairs [buildQueryString] sets, in order:
    [if (value !== undefined && value !== null && key !== 'perPage' && key !== 'page')
       queryParams.set(this.toSnakeCase(key), String(value))]. *)
Definition query_step (q : list (string * string)) (kv : string * jsval) : list (string * string) :=
  match snd kv with
  | None | Some JNull => q
  | Some v =>
      if String.eqb (fst kv) "perPage" || String.eqb (fst kv) "page" then q
      else usp_set (toSnakeCase (fst kv)) (to_string v) q
  end.

Definition query_pairs (params : js_object) : list (string * string) :=
  fold_left query_step params [].




Section Methods.

Variable tr : transport.
Variable cl : GitLabClient.

Definition getCurrentUser : M jsval := request tr cl "/user" default_init.








(** The two raw-text methods call [fetch] themselves and only check
    [response.ok]. *)
Definition getFileRaw (projectId : Id) (filePath ref : string) : M string :=
  let projectEncoded := encodeURIComponent (String_of_Id projectId) in
  let fileEncoded := encodeURIComponent filePath in
  let url := client_baseUrl cl ++ "/projects/" ++ projectEncoded ++ "/repository/files/"
             ++ fileEncoded ++ "/raw?ref=" ++ encodeURIComponent ref in
  auth <- lift (getAuthHeaders cl) ;;
  r <- fetch tr {| f_url := url; f_method := "GET"; f_headers := auth; f_body := None |} ;;
  if negb (ok r) then
    raise (GitLabApiError (JStr ("Failed to get file: " ++ Z_to_string (status r))) (status r))
  else ret (body r).

Definition getJobLog (projectId : Id) (jobId : Z) : M string :=
  let encoded := encodeURIComponent (String_of_Id projectId) in
  let url := client_baseUrl cl ++ "/projects/" ++ encoded ++ "/jobs/" ++ Z_to_string jobId
             ++ "/trace" in
  auth <- lift (getAuthHeaders cl) ;;
  r <- fetch tr {| f_url := url; f_method := "GET"; f_headers := auth; f_body := None |} ;;
  if negb (ok r) then
    raise (GitLabApiError (JStr ("Failed to get job log: " ++ Z_to_string (status r))) (status r))
  else ret (body r).

Record ConnectionResult := {
  connected : bool;
  conn_message : string;
  user : jsval
}.

(** Modelled from the spec: [utils/errors.ts] is not in the sources.  The
    spec gives each error kind a human message; as subclasses of [Error]
    built with [super(message)], an error's [message] is its constructor
    argument converted to a string. *)
Definition error_message (e : error) : string :=
  match e with
  | AuthenticationError m | RateLimitError m _ | TypeError m | SyntaxError m
  | PlainError m => m
  | GitLabApiError m _ => to_string m
  end.

(** [try { const user = await this.getCurrentUser();
          return { connected: true, message: `Connected as ${user.username}`, user }; }
     catch (error) { return { connected: false, message: error.message }; }]
    (every error of this model is an [Error]). *)
Definition testConnection : M ConnectionResult :=
  fun s =>
    match getCurrentUser s with
    | (Ok u, s') =>
        match js_get u "username" with
        | Ok name =>
            (Ok {| connected := true; conn_message := "Connected as " ++ val_to_string name;
                   user := u |}, s')
        | Throw e => (Ok {| connected := false; conn_message := error_message e; user := None |}, s')
        end
    | (Throw e, s') =>
        (Ok {| connected := false; conn_message := error_message e; user := None |}, s')
    end.

End Methods.

(** ** [utils/pagination.ts] *)
Module Pagination.

Definition PAGINATION_DEFAULTS_perPage : num := 20.
Definition PAGINATION_DEFAULTS_maxPerPage : num := 100.

(** [normalizePaginationParams(params?, maxPerPage = 100)]:
    [perPage: Math.min(params?.perPage || 20, maxPerPage)]. *)
Definition normalizePaginationParams (params : option PaginationParams) (maxPerPage : option num)
    : PaginationParams :=
  let maxPerPage := match maxPerPage with Some m => m | None => PAGINATION_DEFAULTS_maxPerPage end in
  let requested := match params with Some p => perPage p | None => None end in
  {| perPage := Some (num_min (if truthy_opt_num requested then num_or_zero requested
                               else PAGINATION_DEFAULTS_perPage) maxPerPage);
     page := match params with Some p => page p | None => None end |}.

Record PaginationOptions := {
  o_total : option num;
  o_page : option num;
  o_totalPages : option num;
  o_nextPage : option num;
  o_hasMore : option bool
}.

Definition no_options : PaginationOptions :=
  {| o_total := None; o_page := None; o_totalPages := None; o_nextPage := None;
     o_hasMore := None |}.

(** [createPaginatedResponse(items, options = {})]. *)
Definition createPaginatedResponse (its : list json) (options : PaginationOptions)
    : PaginatedResponse :=
  {| items := JArr its;
     count := Some (JNum (Int (Z.of_nat (List.length its))));
     total := o_total options;
     pr_page := o_page options;
     totalPages := o_totalPages options;
     nextPage := o_nextPage options;
     hasMore := match o_hasMore options with
                | Some b => b
                | None => match o_nextPage options with Some _ => true | None => false end
                end |}.

Record PaginationHeaders := {
  h_total : option num;
  h_totalPages : option num;
  h_page : option num;
  h_nextPage : option num;
  h_perPage : option num
}.

Definition header_value (h : headers) (name : string) : option num :=
  match headers_get h name with
  | Some v => if truthy_str (Some v) then Some (parseInt10 v) else None
  | None => None
  end.

(** [parseGitLabPaginationHeaders(headers)]. *)
Definition parseGitLabPaginationHeaders (h : headers) : PaginationHeaders :=
  {| h_total := header_value h "X-Total";
     h_totalPages := header_value h "X-Total-Pages";
     h_page := header_value h "X-Page";
     h_nextPage := header_value h "X-Next-Page";
     h_perPage := header_value h "X-Per-Page" |}.

(** [emptyPaginatedResponse()]: [{ items: [], count: 0, hasMore: false }]. *)
Definition emptyPaginatedResponse : PaginatedResponse :=
  {| items := JArr []; count := Some (JNum 0); total := None; hasMore := false;
     pr_page := None; nextPage := None; totalPages := None |}.

(** [hasMoreItems(page, totalPages)]: [page < totalPages]. *)
Definition hasMoreItems (page totalPages : num) : bool := num_lt page totalPages.

(** [getNextPage(currentPage, totalPages)]:
    [const next = currentPage + 1; return next <= totalPages ? next : undefined]. *)
Definition getNextPage (currentPage totalPages : num) : option num :=
  let next := num_add currentPage (Int 1) in
  if num_le next totalPages then Some next else None.

End Pagination.

(** ** The Worker's [fetch] handler ([part_000]) *)
Record WorkerRequest := {
  pathname : string;
  req_method : string;
  req_headers : headers
}.

Inductive WorkerResponse : Type :=
| WJson (st : Z) (b : json)
| WText (st : Z) (b : string)
| WStream (st : Z).  (* the MCP handler's streamed answer *)

Definition SERVER_NAME : string := "gitlab-mcp-server".
Definition SERVER_VERSION : string := "1.0.0".

(** The default information page (its constant [endpoints],
    [authentication] and [tools] fields are left out). *)
Definition info_page : json :=
  JObj [("name", JStr SERVER_NAME); ("version", JStr SERVER_VERSION);
        ("description", JStr "Multi-tenant GitLab MCP Server")].

Section Worker.

(** The MCP handler built by [createStatelessServer(credentials)] around
    [createGitLabClient(credentials)]: any computation over the client. *)
Variable mcp_handler : GitLabClient -> WorkerRequest -> M WorkerResponse.

Definition worker_fetch (req : WorkerRequest) : M WorkerResponse :=
  if String.eqb (pathname req) "/health" then
    ret (WJson 200 (JObj [("status", JStr "ok"); ("server", JStr SERVER_NAME)]))
  else if String.eqb (pathname req) "/mcp" && String.eqb (req_method req) "POST" then
    let credentials := parseTenantCredentials (req_headers req) in
    match validateCredentials credentials with
    | Throw e =>
        ret (WJson 401 (JObj [("error", JStr "Unauthorized");
                              ("message", JStr (error_message e));
                              ("required_headers",
                                 JArr [JStr "X-GitLab-Token or X-GitLab-Access-Token"])]))
    | Ok _ => mcp_handler (createGitLabClient credentials) req
    end
  else if String.eqb (pathname req) "/sse" then
    ret (WText 501 "SSE endpoint requires Durable Objects. Enable in wrangler.jsonc.")
  else ret (WJson 200 info_page).

End Worker.

(** ** [formatPaginationInfo] ([utils/formatters.ts]) *)

Definition nl : string := String (ascii_of_nat 10) EmptyString.

(** [${x || 1}] for an optional number. *)
Definition or_one (n : option num) : string :=
  match n with
  | Some m => if truthy_opt_num (Some m) then num_to_string m else "1"
  | None => "1"
  end.

Definition formatPaginationInfo (response : PaginatedResponse) : string :=
  join nl
    (app (match total response with
          | Some t => ["**Total:** " ++ num_to_string t ++ " | **Page:** " ++ or_one (pr_page response)
                       ++ "/" ++ or_one (totalPages response)]
          | None => []
          end)
         (match nextPage response with
          | Some n => if hasMore response && truthy_opt_num (Some n)
                      then ["**Next Page:** " ++ num_to_string n] else []
          | None => []
          end)).

(** ** Environment settings ([part_003])

    The three variables of [wrangler.jsonc], absent when not configured;
    the bindings [OAUTH_KV], [MCP_SESSIONS] and [AI] are never strings. *)
Record Env := {
  CHARACTER_LIMIT : option string;
  DEFAULT_PAGE_SIZE : option string;
  MAX_PAGE_SIZE : option string
}.

Inductive EnvKey : Type :=
| K_CHARACTER_LIMIT | K_DEFAULT_PAGE_SIZE | K_MAX_PAGE_SIZE
| K_OAUTH_KV | K_MCP_SESSIONS | K_AI.

(** [env[key]] when it is a string. *)
Definition env_string (env : Env) (key : EnvKey) : option string :=
  match key with
  | K_CHARACTER_LIMIT => CHARACTER_LIMIT env
  | K_DEFAULT_PAGE_SIZE => DEFAULT_PAGE_SIZE env
  | K_MAX_PAGE_SIZE => MAX_PAGE_SIZE env
  | K_OAUTH_KV | K_MCP_SESSIONS | K_AI => None
  end.

Definition getEnvNumber (env : Env) (key : EnvKey) (defaultValue : num) : num :=
  match env_string env key with
  | Some value => match parseInt10 value with NaN => defaultValue | parsed => parsed end
  | None => defaultValue
  end.

Definition getCharacterLimit (env : Env) : num := getEnvNumber env K_CHARACTER_LIMIT 50000.
Definition getDefaultPageSize (env : Env) : num := getEnvNumber env K_DEFAULT_PAGE_SIZE 20.
Definition getMaxPageSize (env : Env) : num := getEnvNumber env K_MAX_PAGE_SIZE 100.


(** * Properties *)

(** ** Helper lemmas *)

Lemma truthy_str_or_undefined : forall v, truthy_str (or_undefined v) = truthy_str v.
Proof.
  intros [s|]; unfold or_undefined; simpl; [destruct (String.eqb s "") eqn:E|]; simpl;
    try rewrite E; reflexivity.
Qed.

Lemma or_undefined_truthy : forall v, or_undefined v = None <-> truthy_str v = false.
Proof.
  intros [s|]; unfold or_undefined; simpl; [destruct (String.eqb s "") eqn:E|]; simpl;
    split; intro H; try congruence.
Qed.

(** Running an executor once the credentials are usable and the transport
    answers with [r]: one request is logged, then the response is checked. *)
Ltac run_executor Hauth Htr :=
  unfold request, requestWithPagination, bind, lift, fetch, ret;
  rewrite Hauth; rewrite Htr.

Lemma request_run : forall tr cl endpoint options log auth r,
  getAuthHeaders cl = Ok auth ->
  (forall q, tr q = Ok r) ->
  fst (request tr cl endpoint options log) =
  match check_status r with
  | Throw e => Throw e
  | Ok _ => if status r =? 204 then Ok None
            else match response_json r with Ok j => Ok (Some j) | Throw e => Throw e end
  end.
Proof.
  intros tr cl endpoint options log auth r Hauth Htr.
  run_executor Hauth Htr.
  destruct (check_status r); [|reflexivity].
  destruct (status r =? 204); [reflexivity|].
  destruct (response_json r); reflexivity.
Qed.

Lemma requestWithPagination_error : forall tr cl endpoint params options log auth r e,
  getAuthHeaders cl = Ok auth ->
  (forall q, tr q = Ok r) ->
  check_status r = Throw e ->
  fst (requestWithPagination tr cl endpoint params options log) = Throw e.
Proof.
  intros tr cl endpoint params options log auth r e Hauth Htr Hc.
  run_executor Hauth Htr. rewrite Hc. reflexivity.
Qed.

Lemma request_error : forall tr cl endpoint options log auth r e,
  getAuthHeaders cl = Ok auth ->
  (forall q, tr q = Ok r) ->
  check_status r = Throw e ->
  fst (request tr cl endpoint options log) = Throw e.
Proof.
  intros tr cl endpoint options log auth r e Hauth Htr Hc.
  rewrite (request_run tr cl endpoint options log auth r Hauth Htr), Hc. reflexivity.
Qed.

(** ** C1: missing credentials at the Worker boundary *)

Definition mcp_request (h : headers) : WorkerRequest :=
  {| pathname := "/mcp"; req_method := "POST"; req_headers := h |}.

(** C1 (as stated it fails): a request without either token header makes
    [validateCredentials] throw a plain [Error], not an AuthenticationError. *)
Lemma C1_validate_not_AuthenticationError :
  validateCredentials (parseTenantCredentials [("X-GitLab-Base-URL", "https://gitlab.example.com/api/v4")])
  = Throw (PlainError
      "Missing credentials. Provide either X-GitLab-Token or X-GitLab-Access-Token header.")
  /\ forall m, validateCredentials (parseTenantCredentials
                  [("X-GitLab-Base-URL", "https://gitlab.example.com/api/v4")])
               <> Throw (AuthenticationError m).
Proof. split; [reflexivity | intros m H; discriminate H]. Qed.

(** C1 (amended): for every inbound request whose [X-GitLab-Token] and
    [X-GitLab-Access-Token] headers are both absent (or empty), the Worker
    hands no request to the transport, whatever the MCP handler would do;
    on [POST /mcp] [validateCredentials] throws a plain [Error] and the
    answer is the 401 [Unauthorized] JSON response carrying its message. *)
Theorem C1_missing_tokens_rejected_before_transport :
  forall (mcp_handler : GitLabClient -> WorkerRequest -> M WorkerResponse)
         (req : WorkerRequest) (log : list fetch_request),
  truthy_str (headers_get (req_headers req) "X-GitLab-Token") = false ->
  truthy_str (headers_get (req_headers req) "X-GitLab-Access-Token") = false ->
  snd (worker_fetch mcp_handler req log) = log /\
  (pathname req = "/mcp" -> req_method req = "POST" ->
   exists m,
     validateCredentials (parseTenantCredentials (req_headers req)) = Throw (PlainError m) /\
     fst (worker_fetch mcp_handler req log) =
       Ok (WJson 401 (JObj [("error", JStr "Unauthorized"); ("message", JStr m);
                            ("required_headers",
                               JArr [JStr "X-GitLab-Token or X-GitLab-Access-Token"])]))).
Proof.
  intros mcp_handler req log Hp Ha.
  assert (Hv : validateCredentials (parseTenantCredentials (req_headers req)) =
               Throw (PlainError
                 "Missing credentials. Provide either X-GitLab-Token or X-GitLab-Access-Token header.")).
  { unfold validateCredentials, parseTenantCredentials; simpl.
    rewrite !truthy_str_or_undefined, Hp, Ha. reflexivity. }
  unfold worker_fetch. rewrite Hv.
  split.
  - destruct (String.eqb (pathname req) "/health"); [reflexivity|].
    destruct (String.eqb (pathname req) "/mcp" && String.eqb (req_method req) "POST");
      [reflexivity|].
    destruct (String.eqb (pathname req) "/sse"); reflexivity.
  - intros Hpath Hmeth. eexists; split; [reflexivity|].
    rewrite Hpath, Hmeth. reflexivity.
Qed.

(** ** C2: 401 and 403 *)

(** C2: whatever its body and headers, a 401 or 403 response makes both
    the single-resource and the paginated-list executor throw an
    AuthenticationError. *)
Theorem C2_401_403_AuthenticationError :
  forall tr cl endpoint params options log,
  (forall q, exists r, tr q = Ok r /\ (status r = 401 \/ status r = 403)) ->
  (exists m, fst (request tr cl endpoint options log) = Throw (AuthenticationError m)) /\
  (exists m, fst (requestWithPagination tr cl endpoint params options log)
             = Throw (AuthenticationError m)).
Proof.
  intros tr cl endpoint params options log Htr.
  assert (Hc : forall r, status r = 401 \/ status r = 403 ->
            check_status r = Throw (AuthenticationError
                               "Authentication failed. Check your GitLab credentials.")).
  { intros r [H|H]; unfold check_status; rewrite H; reflexivity. }
  destruct (getAuthHeaders cl) as [auth|e] eqn:Hauth.
  - split; eexists; unfold request, requestWithPagination, bind, lift, fetch, ret;
      rewrite Hauth;
      match goal with |- context [tr ?x] =>
        destruct (Htr x) as [r [Hr Hs]]; rewrite Hr, (Hc r Hs); reflexivity end.
  - assert (He : exists m, e = AuthenticationError m).
    { unfold getAuthHeaders in Hauth.
      destruct (or_undefined (accessToken (credentials cl)));
        [|destruct (or_undefined (privateToken (credentials cl)))];
        inversion Hauth; eauto. }
    destruct He as [m ->].
    split; exists m; unfold request, requestWithPagination, bind, lift; rewrite Hauth;
      reflexivity.
Qed.

(** ** C3: 429 *)

Definition r429 : response := {| status := 429; resp_headers := []; body := ""; syntax_error_message := "Unexpected end of JSON input" |}.

Definition client_with_token : GitLabClient :=
  createGitLabClient {| privateToken := Some "glpat-token"; baseUrl := None; accessToken := None |}.

(** C3 (as stated it fails): a 429 answer to [getFileRaw], one of the two
    raw-text calls, is reported as a GitLabApiError, not a RateLimitError. *)
Lemma C3_getFileRaw_429_not_RateLimitError :
  fst (getFileRaw (fun _ => Ok r429) client_with_token (IdStr "group/project") "README.md" "main" [])
  = Throw (GitLabApiError (JStr "Failed to get file: 429") 429)
  /\ forall m n,
     fst (getFileRaw (fun _ => Ok r429) client_with_token (IdStr "group/project") "README.md" "main" [])
     <> Throw (RateLimitError m n).
Proof. split; [reflexivity | intros m n H; discriminate H]. Qed.

Fixpoint all_digits (s : string) : bool :=
  match s with
  | EmptyString => true
  | String c r => is_digit c && all_digits r
  end.

Lemma json_digits_all : forall s acc,
  all_digits s = true -> json_digits s acc = (fold_left (fun a c => a * 10 + digit_value c)
                                                  (list_ascii_of_string s) acc, EmptyString).
Proof.
  induction s as [|c s IH]; intros acc H; simpl in *; [reflexivity|].
  apply andb_prop in H as [Hc Hs]. rewrite Hc. apply IH, Hs.
Qed.

Lemma digit_range : forall c, is_digit c = true -> (48 <= nat_of_ascii c <= 57)%nat.
Proof.
  intros c Hc. unfold is_digit in Hc. apply andb_prop in Hc as [H1 H2].
  apply Nat.leb_le in H1, H2. lia.
Qed.

(** A digit is not white space: [trim_start] stops at it. *)
Lemma trim_start_digit : forall c r, is_digit c = true -> trim_start (String c r) = String c r.
Proof.
  intros c r Hc. apply digit_range in Hc.
  assert (Ha : forall k, (k < 48 \/ 57 < k)%nat -> Nat.eqb (nat_of_ascii c) k = false)
    by (intros k Hk; apply Nat.eqb_neq; lia).
  assert (Hs : is_js_space c = false).
  { unfold is_js_space. rewrite Ha by lia. simpl. apply andb_false_intro2, Nat.leb_gt. lia. }
  cbn [trim_start]. rewrite Hs.
  destruct r as [|c2 r2]; [reflexivity|].
  rewrite (Ha 194%nat) by lia. simpl andb.
  destruct r2 as [|c3 r3]; [reflexivity|].
  unfold is_js_space3. cbv zeta.
  rewrite (Ha 225%nat), (Ha 226%nat), (Ha 227%nat), (Ha 239%nat) by lia. reflexivity.
Qed.

Lemma parseInt10_digit_head : forall c r,
  is_digit c = true -> parseInt10 (String c r) = num_of_ratio false (fst (json_digits (String c r) 0)) 1.
Proof.
  intros c r Hc. unfold parseInt10. rewrite (trim_start_digit c r Hc).
  pose proof (digit_range c Hc) as Hn. clear Hc.
  rewrite <- (ascii_nat_embedding c).
  remember (nat_of_ascii c) as n eqn:En. clear En.
  do 48 (destruct n as [|n]; [lia|]).
  do 10 (destruct n as [|n]; [reflexivity|]).
  lia.
Qed.

Lemma decimal_fold_nonneg : forall s acc,
  all_digits s = true -> 0 <= acc ->
  0 <= fold_left (fun a c => a * 10 + digit_value c) (list_ascii_of_string s) acc.
Proof.
  induction s as [|c s IH]; intros acc Hd Ha; simpl in *; [exact Ha|].
  apply andb_prop in Hd as [Hc Hd]. apply digit_range in Hc.
  apply IH; [exact Hd|]. unfold digit_value. lia.
Qed.

Lemma decimal_value_nonneg : forall s, all_digits s = true -> 0 <= decimal_value s.
Proof. intros s Hd. apply decimal_fold_nonneg; [exact Hd | lia]. Qed.

(** An integer of magnitude at most [2^53] is a double as it is. *)
Lemma num_of_Z_exact : forall z, - 2 ^ 53 <= z <= 2 ^ 53 -> num_of_Z z = Int z.
Proof.
  intros z Hz. unfold num_of_Z, num_of_ratio.
  destruct (Z.eqb_spec (Z.abs z) 0) as [H0|H0]; [f_equal; lia|].
  unfold round_ratio.
  replace (Z.abs z <=? 2 ^ 53) with true by (symmetry; apply Z.leb_le; lia).
  simpl (1 =? 1). simpl andb. cbv iota.
  destruct (Z.ltb_spec z 0); simpl; f_equal; lia.
Qed.

Lemma parseInt10_digits : forall s,
  s <> EmptyString -> all_digits s = true -> parseInt10 s = num_of_Z (decimal_value s).
Proof.
  intros [|c r] Hne Hd; [congruence|].
  pose proof Hd as Hd'. simpl in Hd'. apply andb_prop in Hd' as [Hc _].
  rewrite parseInt10_digit_head by exact Hc.
  rewrite json_digits_all by exact Hd. simpl fst.
  change (fold_left (fun a c0 => a * 10 + digit_value c0) (list_ascii_of_string (String c r)) 0)
    with (decimal_value (String c r)).
  pose proof (decimal_value_nonneg _ Hd) as Hn.
  unfold num_of_Z. replace (decimal_value (String c r) <? 0) with false
    by (symmetry; apply Z.ltb_ge; lia).
  rewrite Z.abs_eq by lia. reflexivity.
Qed.

(** A value that, after leading white space, starts with neither a digit
    nor a sign (an HTTP date, say) reads as NaN. *)
Lemma parseInt10_not_numeric : forall s,
  match trim_start s with
  | EmptyString => True
  | String c _ => is_digit c = false /\ c <> "-"%char /\ c <> "+"%char
  end -> parseInt10 s = NaN.
Proof.
  intros s Hs. unfold parseInt10. destruct (trim_start s) as [|c r]; [reflexivity|].
  destruct Hs as [Hd [Hm Hp]].
  destruct c as [[] [] [] [] [] [] [] []]; try discriminate Hd;
    try (exfalso; apply Hm; reflexivity); try (exfalso; apply Hp; reflexivity); reflexivity.
Qed.

(** C3 (amended): for the single-resource and the paginated-list
    executors, with usable credentials, a 429 response makes the call throw
    a RateLimitError whose [retryAfterSeconds] is 60 when [Retry-After] is
    absent or empty, and [parseInt(value, 10)] of the header's value
    otherwise: for a string of decimal digits the double nearest to the
    number they denote (that number itself up to [2^53], so
    [Retry-After: 30] gives 30), NaN for a value that starts with neither a
    digit nor a sign (an HTTP date).  The raw-text calls [getFileRaw] and
    [getJobLog] do not single out 429: they throw a GitLabApiError with
    status 429. *)
Theorem C3_429_RateLimitError :
  forall tr cl endpoint params options pid filePath ref jobId log auth r,
  getAuthHeaders cl = Ok auth ->
  (forall q, tr q = Ok r) ->
  status r = 429 ->
  ((headers_get (resp_headers r) "Retry-After" = None \/
    headers_get (resp_headers r) "Retry-After" = Some "") ->
   fst (request tr cl endpoint options log) = Throw (RateLimitError "Rate limit exceeded" (Int 60)) /\
   fst (requestWithPagination tr cl endpoint params options log)
     = Throw (RateLimitError "Rate limit exceeded" (Int 60))) /\
  (forall d, headers_get (resp_headers r) "Retry-After" = Some d -> d <> "" ->
   fst (request tr cl endpoint options log)
     = Throw (RateLimitError "Rate limit exceeded" (parseInt10 d)) /\
   fst (requestWithPagination tr cl endpoint params options log)
     = Throw (RateLimitError "Rate limit exceeded" (parseInt10 d))) /\
  (forall d, d <> "" -> all_digits d = true ->
   parseInt10 d = num_of_Z (decimal_value d) /\
   (decimal_value d <= 2 ^ 53 -> parseInt10 d = Int (decimal_value d))) /\
  (forall d, match trim_start d with
             | EmptyString => True
             | String c _ => is_digit c = false /\ c <> "-"%char /\ c <> "+"%char
             end -> parseInt10 d = NaN) /\
  fst (getFileRaw tr cl pid filePath ref log)
    = Throw (GitLabApiError (JStr "Failed to get file: 429") 429) /\
  fst (getJobLog tr cl pid jobId log)
    = Throw (GitLabApiError (JStr "Failed to get job log: 429") 429).
Proof.
  intros tr cl endpoint params options pid filePath ref jobId log auth r Hauth Htr Hs.
  split; [|split; [|split; [|split; [|split]]]].
  - intros Hh.
    assert (Hc : check_status r = Throw (RateLimitError "Rate limit exceeded" (Int 60))).
    { unfold check_status. rewrite Hs. simpl.
      destruct Hh as [Hh|Hh]; rewrite Hh; reflexivity. }
    split; [eapply request_error | eapply requestWithPagination_error]; eauto.
  - intros d Hh Hne.
    assert (Hc : check_status r = Throw (RateLimitError "Rate limit exceeded" (parseInt10 d))).
    { unfold check_status. rewrite Hs. simpl. rewrite Hh.
      assert (Ht : String.eqb d "" = false).
      { destruct (String.eqb_spec d ""); [congruence|reflexivity]. }
      simpl. rewrite Ht. reflexivity. }
    split; [eapply request_error | eapply requestWithPagination_error]; eauto.
  - intros d Hne Hd. rewrite parseInt10_digits by assumption.
    split; [reflexivity|]. intros Hle. apply num_of_Z_exact.
    pose proof (decimal_value_nonneg d Hd). lia.
  - exact parseInt10_not_numeric.
  - unfold getFileRaw, bind, lift, fetch, raise, ret. rewrite Hauth, Htr.
    unfold ok. rewrite Hs. reflexivity.
  - unfold getJobLog, bind, lift, fetch, raise, ret. rewrite Hauth, Htr.
    unfold ok. rewrite Hs. reflexivity.
Qed.

(** ** C4: other non-2xx statuses *)








(** ** C5: the Paginated Result envelope *)

(** C5: every envelope the paginated-list executor returns has [count]
    equal to [items.length] (the number of elements when [items] is an
    array) and [hasMore] true exactly when [nextPage] is defined; the
    envelope built by [createPaginatedResponse] has [count] the length of
    its items, and [hasMore] the supplied value or, when none is supplied,
    whether [nextPage] is defined. *)
Theorem C5_count_items_length_hasMore_nextPage :
  (forall tr cl endpoint params options log pr,
     fst (requestWithPagination tr cl endpoint params options log) = Ok pr ->
     js_get (Some (items pr)) "length" = Ok (count pr) /\
     (forall l, items pr = JArr l -> count pr = Some (JNum (Z.of_nat (List.length l)))) /\
     hasMore pr = match nextPage pr with Some _ => true | None => false end) /\
  (forall its options,
     let pr := Pagination.createPaginatedResponse its options in
     count pr = Some (JNum (Z.of_nat (List.length its))) /\
     js_get (Some (items pr)) "length" = Ok (count pr) /\
     hasMore pr = match Pagination.o_hasMore options with
                  | Some b => b
                  | None => match nextPage pr with Some _ => true | None => false end
                  end).
Proof.
  split.
  - intros tr cl endpoint params options log pr H.
    unfold requestWithPagination, bind, lift, fetch, ret in H.
    destruct (getAuthHeaders cl) as [auth|e]; [|discriminate].
    match type of H with context [tr ?q] => destruct (tr q) as [r|e] end; [|discriminate].
    destruct (check_status r); [|discriminate].
    destruct (response_json r) as [its|e]; [|discriminate].
    destruct (js_get (Some its) "length") as [cnt|e] eqn:Hl; [|discriminate].
    simpl in H. inversion H; subst pr; simpl.
    split; [exact Hl|].
    split; [intros l ->; simpl in Hl; inversion Hl; reflexivity|].
    destruct (header_num r "X-Next-Page"); reflexivity.
  - intros its options. simpl. repeat split.
Qed.

(** ** C6: pagination headers *)

Definition r_list_page : response :=
  {| status := 200;
     resp_headers := [("X-Total", "42"); ("X-Total-Pages", "3"); ("X-Page", "1");
                      ("X-Next-Page", "2")];
     body := "[]"; syntax_error_message := EmptyString |}.

(** C6 (code fails it): answered with [X-Total: 42], [X-Total-Pages: 3],
    [X-Page: 1] and [X-Next-Page: 2], the paginated-list executor fills
    [total], [totalPages], [nextPage] and [hasMore] but leaves [page]
    undefined, although [X-Page] is present and the sibling
    [parseGitLabPaginationHeaders] reads it as 1. *)
Theorem C6_executor_ignores_X_Page :
  fst (requestWithPagination (fun _ => Ok r_list_page) client_with_token "/projects" None
         default_init [])
  = Ok {| items := JArr []; count := Some (JNum 0); total := Some (Int 42);
          hasMore := true; pr_page := None; nextPage := Some (Int 2);
          totalPages := Some (Int 3) |}
  /\ Pagination.h_page (Pagination.parseGitLabPaginationHeaders (resp_headers r_list_page))
     = Some (Int 1).
Proof. split; reflexivity. Qed.

(** ** Requests that reach the transport *)

Lemma request_log : forall tr cl endpoint options log auth,
  getAuthHeaders cl = Ok auth ->
  snd (request tr cl endpoint options log) =
  (log ++ [{| f_url := client_baseUrl cl ++ endpoint; f_method := method options;
              f_headers := spread auth (init_headers options);
              f_body := init_body options |}])%list.
Proof.
  intros tr cl endpoint options log auth Hauth.
  unfold request, bind, lift, fetch, ret. rewrite Hauth.
  match goal with |- context [tr ?q] => destruct (tr q) as [r|e] end; [|reflexivity].
  destruct (check_status r); [|reflexivity].
  destruct (status r =? 204); [reflexivity|].
  destruct (response_json r); reflexivity.
Qed.


(** ** C7: the authentication header *)



(** ** C8: [testConnection] *)

Definition r204 : response := {| status := 204; resp_headers := []; body := ""; syntax_error_message := "Unexpected end of JSON input" |}.




(** ** C9: the default per-page policy *)

(** [num_compare] is antisymmetric. *)
Lemma num_compare_sym : forall x y, num_compare y x = option_map CompOpp (num_compare x y).
Proof.
  intros [|a|a e|[]] [|b|b f|[]]; simpl; try reflexivity;
    try (rewrite Z.compare_antisym; reflexivity);
    try (destruct a; reflexivity); try (destruct b; reflexivity).
Qed.

(** A number above a non-negative integer is truthy. *)
Lemma num_lt_truthy : forall m z, 0 <= m -> num_lt (Int m) z = true -> num_truthy z = true.
Proof.
  intros m [|z|z e|b] Hm H; try reflexivity; [discriminate H|].
  unfold num_lt in H. simpl in H. destruct (Z.compare_spec (m * 1) (z * 1)); try discriminate.
  simpl. destruct (Z.eqb_spec z 0); [lia | reflexivity].
Qed.

(** [Math.min(x, y)] is [y] when [y < x]. *)
Lemma num_min_gt : forall x y, num_lt y x = true -> num_min x y = y.
Proof.
  intros x y H. unfold num_min. rewrite num_compare_sym. unfold num_lt in H.
  destruct (num_compare y x) as [[]|]; try discriminate H. reflexivity.
Qed.

(** C9: with its default ceiling, [normalizePaginationParams] maps a
    requested [perPage] above 100 to 100, and an absent [perPage] (or absent
    params) to 20. *)
Theorem C9_perPage_clamped_or_defaulted :
  (forall p z, perPage p = Some z -> num_lt (Int 100) z = true ->
     perPage (Pagination.normalizePaginationParams (Some p) None) = Some (Int 100)) /\
  (forall p, perPage p = None ->
     perPage (Pagination.normalizePaginationParams (Some p) None) = Some (Int 20)) /\
  perPage (Pagination.normalizePaginationParams None None) = Some (Int 20).
Proof.
  split; [|split].
  - intros p z Hp Hz. unfold Pagination.normalizePaginationParams. cbn [perPage]. rewrite Hp.
    unfold truthy_opt_num. rewrite (num_lt_truthy 100 z) by (lia || exact Hz).
    cbn [num_or_zero]. f_equal. apply num_min_gt. exact Hz.
  - intros p Hp. unfold Pagination.normalizePaginationParams. cbn [perPage]. rewrite Hp.
    reflexivity.
  - reflexivity.
Qed.

(** ** C10: identifiers in paths *)

Lemma string_app_assoc : forall a b c : string, (a ++ b) ++ c = a ++ (b ++ c).
Proof. induction a as [|x a IH]; intros b c; simpl; [reflexivity|]. rewrite IH. reflexivity. Qed.


Lemma hex_digit_small : forall k, (k < 16)%nat ->
  hex_value (hex_digit k) = Some (Z.of_nat k) /\
  uri_unreserved (hex_digit k) = true /\ hex_digit k <> "%"%char.
Proof.
  intros k Hk.
  do 16 (destruct k as [|k]; [split; [reflexivity | split; [reflexivity | discriminate]]|]).
  lia.
Qed.






(** * Witnesses: the theorems at concrete inputs *)

(** An MCP handler that would call the API once. *)
Definition calling_handler (cl : GitLabClient) (req : WorkerRequest) : M WorkerResponse :=
  _ <- getCurrentUser (fun _ => Ok r204) cl ;; ret (WStream 200).

Definition no_token_headers : headers :=
  [("X-GitLab-Base-URL", "https://gitlab.example.com/api/v4"); ("X-GitLab-Token", "")].

Lemma C1_witness :
  snd (worker_fetch calling_handler (mcp_request no_token_headers) []) = [] /\
  exists m, fst (worker_fetch calling_handler (mcp_request no_token_headers) [])
    = Ok (WJson 401 (JObj [("error", JStr "Unauthorized"); ("message", JStr m);
                           ("required_headers",
                              JArr [JStr "X-GitLab-Token or X-GitLab-Access-Token"])])).
Proof.
  destruct (C1_missing_tokens_rejected_before_transport calling_handler
              (mcp_request no_token_headers) [] eq_refl eq_refl) as [H1 H2].
  split; [exact H1|].
  destruct (H2 eq_refl eq_refl) as [m [_ Hm]]. exists m. exact Hm.
Defined.

Definition r403 : response :=
  {| status := 403; resp_headers := []; body := "{" ++ quoted "message" ++ ": " ++ quoted "403 Forbidden" ++ "}"; syntax_error_message := EmptyString |}.

Lemma C2_witness :
  (exists m, fst (request (fun _ => Ok r403) client_with_token "/projects" default_init [])
             = Throw (AuthenticationError m)) /\
  (exists m, fst (requestWithPagination (fun _ => Ok r403) client_with_token "/projects" None
                    default_init [])
             = Throw (AuthenticationError m)).
Proof.
  apply C2_401_403_AuthenticationError.
  intros q. exists r403. split; [reflexivity | right; reflexivity].
Defined.

Definition r429_30 : response :=
  {| status := 429; resp_headers := [("Retry-After", "30")]; body := ""; syntax_error_message := "Unexpected end of JSON input" |}.

Lemma C3_witness :
  fst (request (fun _ => Ok r429_30) client_with_token "/user" default_init [])
    = Throw (RateLimitError "Rate limit exceeded" (Int 30)) /\
  fst (request (fun _ => Ok r429) client_with_token "/user" default_init [])
    = Throw (RateLimitError "Rate limit exceeded" (Int 60)) /\
  parseInt10 "Wed, 21 Oct 2015 07:28:00 GMT" = NaN /\
  fst (getJobLog (fun _ => Ok r429) client_with_token (IdNum 7) 12 [])
    = Throw (GitLabApiError (JStr "Failed to get job log: 429") 429).
Proof.
  destruct (C3_429_RateLimitError (fun _ => Ok r429_30) client_with_token "/user" None
              default_init (IdNum 7) "README.md" "main" 12 [] _ r429_30 eq_refl
              (fun _ => eq_refl) eq_refl) as [_ [H2 [H3 [H4 _]]]].
  destruct (C3_429_RateLimitError (fun _ => Ok r429) client_with_token "/user" None
              default_init (IdNum 7) "README.md" "main" 12 [] _ r429 eq_refl
              (fun _ => eq_refl) eq_refl) as [H1 [_ [_ [_ [_ H6]]]]].
  split; [|split; [|split]].
  - destruct (H2 "30") as [H _]; [reflexivity | discriminate |].
    rewrite H, (proj2 (H3 "30" ltac:(discriminate) eq_refl)); [reflexivity|].
    vm_compute. discriminate.
  - apply (proj1 (H1 (or_introl eq_refl))).
  - apply H4. vm_compute. split; [reflexivity | split; discriminate].
  - exact H6.
Defined.




Definition r_list_two : response :=
  {| status := 200; resp_headers := [("X-Total", "2")]; body := "[{" ++ quoted "id" ++ ": 1}, {" ++ quoted "id" ++ ": 2}]"; syntax_error_message := EmptyString |}.

Definition pr_two : PaginatedResponse :=
  {| items := JArr [JObj [("id", JNum 1)]; JObj [("id", JNum 2)]];
     count := Some (JNum 2); total := Some (Int 2); hasMore := false;
     pr_page := None; nextPage := None; totalPages := None |}.

(** A list whose elements hold fractions and exponents. *)
Definition r_list_float : response :=
  {| status := 200; resp_headers := [];
     body := "[{" ++ quoted "id" ++ ": 1, " ++ quoted "score" ++ ": 0.25}, {" ++ quoted "id"
             ++ ": 2, " ++ quoted "score" ++ ": -1.5e3}]";
     syntax_error_message := EmptyString |}.

Definition pr_float : PaginatedResponse :=
  Eval vm_compute in
    match fst (requestWithPagination (fun _ => Ok r_list_float) client_with_token "/projects"
                 None default_init []) with
    | Ok pr => pr
    | Throw _ => Pagination.emptyPaginatedResponse
    end.

Lemma C5_witness :
  (exists pr,
    fst (requestWithPagination (fun _ => Ok r_list_two) client_with_token "/projects"
           (Some {| perPage := Some (Int 50); page := Some (Int 1) |}) default_init []) = Ok pr /\
    count pr = Some (JNum 2) /\ hasMore pr = false) /\
  fst (requestWithPagination (fun _ => Ok r_list_float) client_with_token "/projects" None
         default_init []) = Ok pr_float /\
  count pr_float = Some (JNum 2).
Proof.
  split; [|split; [reflexivity|]].
  - exists pr_two.
    split; [reflexivity|].
    destruct (proj1 C5_count_items_length_hasMore_nextPage (fun _ => Ok r_list_two)
                client_with_token "/projects"
                (Some {| perPage := Some (Int 50); page := Some (Int 1) |})
                default_init [] pr_two eq_refl)
      as [_ [Hl Hh]].
    split; [exact (Hl _ eq_refl) | exact Hh].
  - destruct (proj1 C5_count_items_length_hasMore_nextPage (fun _ => Ok r_list_float)
                client_with_token "/projects" None default_init [] pr_float eq_refl)
      as [_ [Hl _]].
    exact (Hl _ eq_refl).
Defined.







Lemma C9_witness :
  perPage (Pagination.normalizePaginationParams (Some {| perPage := Some (Int 250); page := Some (Int 2) |}) None)
    = Some (Int 100) /\
  perPage (Pagination.normalizePaginationParams (Some {| perPage := None; page := Some (Int 2) |}) None)
    = Some (Int 20).
Proof.
  split.
  - apply (proj1 C9_perPage_clamped_or_defaulted _ (Int 250)); reflexivity.
  - apply (proj1 (proj2 C9_perPage_clamped_or_defaulted)); reflexivity.
Defined.

(** * More of the code *)

(** ** Helpers *)

Fixpoint has_upper (s : string) : bool :=
  match s with
  | EmptyString => false
  | String c r => is_upper c || has_upper r
  end.

Fixpoint count_upper (s : string) : nat :=
  match s with
  | EmptyString => 0
  | String c r => (if is_upper c then 1 else 0) + count_upper r
  end.


(** The decoding of an [application/x-www-form-urlencoded] component, as
    the server reading the query applies it: ['+'] is a space, [%XY] a byte. *)
Fixpoint form_decode (s : string) : string :=
  match s with
  | String "%"%char ((String h1 (String h2 r)) as t) =>
      match hex_value h1, hex_value h2 with
      | Some a, Some b => String (ascii_of_nat (Z.to_nat (a * 16 + b))) (form_decode r)
      | _, _ => String "%"%char (form_decode t)
      end
  | String "+"%char r => String " "%char (form_decode r)
  | String c r => String c (form_decode r)
  | EmptyString => EmptyString
  end.

Lemma is_upper_lower : forall c, is_upper (lower c) = false.
Proof.
  intros c. unfold lower, is_upper; cbv zeta.
  destruct ((65 <=? nat_of_ascii c)%nat && (nat_of_ascii c <=? 90)%nat) eqn:E; [|exact E].
  apply andb_prop in E as [E1 E2]. apply Nat.leb_le in E1, E2.
  rewrite nat_ascii_embedding by lia.
  apply andb_false_intro2. apply Nat.leb_gt. lia.
Qed.

Lemma usp_set_in : forall k v l kv,
  In kv (usp_set k v l) -> kv = (k, v) \/ In kv l.
Proof.
  intros k v l kv. induction l as [|[k' v'] r IH]; simpl; intros H.
  - destruct H as [H|[]]; auto.
  - destruct (String.eqb k k'); simpl in H; destruct H as [H|H]; auto.
    + apply filter_In in H. tauto.
    + destruct (IH H); auto.
Qed.

Lemma usp_set_key : forall k v l, In k (map fst (usp_set k v l)).
Proof.
  intros k v l. induction l as [|[k' v'] r IH]; simpl; [auto|].
  destruct (String.eqb k k'); simpl; auto.
Qed.

Lemma usp_set_keys : forall k v l x, In x (map fst l) -> In x (map fst (usp_set k v l)).
Proof.
  intros k v l x. induction l as [|[k' v'] r IH]; simpl; intros H; [contradiction|].
  destruct (String.eqb k k') eqn:E; simpl.
  - apply String.eqb_eq in E. subst k'.
    destruct (String.eqb_spec x k) as [->|Hne]; [auto|].
    right. destruct H as [H|H]; [congruence|].
    apply in_map_iff in H as [[a b] [Ha Hin]]. simpl in Ha. subst a.
    apply in_map_iff. exists (x, b). split; [reflexivity|].
    apply filter_In. split; [exact Hin|]. simpl.
    destruct (String.eqb_spec x k); [contradiction | reflexivity].
  - destruct H as [H|H]; auto.
Qed.

Lemma usp_set_keys_sub : forall k v l x,
  In x (map fst (usp_set k v l)) -> x = k \/ In x (map fst l).
Proof.
  intros k v l x H. apply in_map_iff in H as [[a b] [Ha Hin]]. simpl in Ha. subst a.
  destruct (usp_set_in _ _ _ _ Hin) as [E|E]; [inversion E; auto|].
  right. apply in_map_iff. exists (x, b). auto.
Qed.

Lemma map_fst_filter_sub : forall (f : string * string -> bool) l x,
  In x (map fst (filter f l)) -> In x (map fst l).
Proof.
  intros f l x H. apply in_map_iff in H as [kv [Hx Hin]].
  apply filter_In in Hin as [Hin _]. apply in_map_iff. eauto.
Qed.

Lemma nodup_map_fst_filter : forall (f : string * string -> bool) l,
  NoDup (map fst l) -> NoDup (map fst (filter f l)).
Proof.
  intros f l. induction l as [|kv r IH]; simpl; intros H; [constructor|].
  inversion H as [|? ? Hn Hd]; subst.
  destruct (f kv); simpl; [|auto].
  constructor; [|auto].
  intros Hin. apply Hn. apply (map_fst_filter_sub f). exact Hin.
Qed.

Lemma usp_set_nodup : forall k v l, NoDup (map fst l) -> NoDup (map fst (usp_set k v l)).
Proof.
  intros k v l. induction l as [|[k' v'] r IH]; simpl; intros H; [repeat constructor; auto|].
  inversion H as [|? ? Hn Hd]; subst.
  destruct (String.eqb k k') eqn:E; simpl.
  - constructor; [|apply nodup_map_fst_filter; exact Hd].
    intros Hin. apply in_map_iff in Hin as [[a b] [Ha Hin]]. simpl in Ha. subst a.
    apply filter_In in Hin as [_ Hf]. simpl in Hf.
    rewrite String.eqb_refl in Hf. discriminate.
  - constructor; [|auto].
    intros Hin. destruct (usp_set_keys_sub _ _ _ _ Hin) as [Hk|Hk]; [|contradiction].
    subst k'. rewrite String.eqb_refl in E. discriminate.
Qed.

(** An entry [buildQueryString] sends. *)
Definition sent_entry (params : js_object) (k : string) (v : json) : Prop :=
  In (k, Some v) params /\ v <> JNull /\ k <> "perPage" /\ k <> "page".

Lemma query_step_in : forall q kv p,
  In p (query_step q kv) ->
  In p q \/ exists v, snd kv = Some v /\ v <> JNull /\ fst kv <> "perPage" /\ fst kv <> "page"
                      /\ p = (toSnakeCase (fst kv), to_string v).
Proof.
  intros q [k [v|]] p; unfold query_step; simpl; [|auto].
  destruct v as [| | | | |] eqn:Ev; try (left; assumption);
  (destruct (String.eqb_spec k "perPage"); [simpl; auto|]);
  (destruct (String.eqb_spec k "page"); [simpl; auto|]); simpl;
  intros H; destruct (usp_set_in _ _ _ _ H) as [E|E]; auto;
  right; eexists; repeat split; eauto; discriminate.
Qed.

Lemma query_fold_in : forall params q p,
  In p (fold_left query_step params q) ->
  In p q \/ exists k v, sent_entry params k v /\ p = (toSnakeCase k, to_string v).
Proof.
  induction params as [|kv ps IH]; simpl; intros q p H; [auto|].
  destruct (IH _ _ H) as [H1|[k [v [[Hin Hs] Hp]]]].
  - destruct (query_step_in _ _ _ H1) as [H2|[v [Hv [Hn [H3 [H4 Hp]]]]]]; [auto|].
    right. exists (fst kv), v. destruct kv as [k w]; simpl in *; subst w.
    repeat split; simpl; auto.
  - right. exists k, v. destruct Hs as [Hv [Hn1 Hn2]]. repeat split; simpl; auto.
Qed.

Lemma query_fold_keys : forall params q x,
  In x (map fst q) -> In x (map fst (fold_left query_step params q)).
Proof.
  induction params as [|kv ps IH]; simpl; intros q x H; [exact H|].
  apply IH. destruct kv as [k [[| | | | |]|]]; unfold query_step; simpl; try exact H;
    destruct (String.eqb k "perPage" || String.eqb k "page"); try exact H;
    apply usp_set_keys; exact H.
Qed.

Lemma query_fold_sent : forall params q k v,
  sent_entry params k v -> In (toSnakeCase k) (map fst (fold_left query_step params q)).
Proof.
  induction params as [|kv ps IH]; simpl; intros q k v [Hin [Hv [Hp1 Hp2]]]; [contradiction|].
  destruct Hin as [E|Hin]; [|apply (IH _ k v); repeat split; assumption].
  subst kv. apply query_fold_keys. unfold query_step; simpl.
  destruct (String.eqb_spec k "perPage"); [contradiction|].
  destruct (String.eqb_spec k "page"); [contradiction|].
  destruct v; try (exfalso; apply Hv; reflexivity); apply usp_set_key.
Qed.

Lemma query_fold_nodup : forall params q,
  NoDup (map fst q) -> NoDup (map fst (fold_left query_step params q)).
Proof.
  induction params as [|kv ps IH]; simpl; intros q H; [exact H|].
  apply IH. destruct kv as [k [[| | | | |]|]]; unfold query_step; simpl; try exact H;
    destruct (String.eqb k "perPage" || String.eqb k "page"); try exact H;
    apply usp_set_nodup; exact H.
Qed.

(** ** [toSnakeCase] *)

Lemma toSnakeCase_spec : forall s,
  has_upper (toSnakeCase s) = false /\
  (has_upper s = false -> toSnakeCase s = s) /\
  (String.length (toSnakeCase s) = String.length s + count_upper s)%nat.
Proof.
  induction s as [|c s [IH1 [IH2 IH3]]]; [repeat split; reflexivity|].
  simpl. destruct (is_upper c) eqn:Hc; simpl.
  - rewrite is_upper_lower, IH1. repeat split; [discriminate | lia].
  - rewrite Hc, IH1. repeat split; [intros H; rewrite IH2; auto | lia].
Qed.

Lemma toSnakeCase_app : forall a b, toSnakeCase (a ++ b) = toSnakeCase a ++ toSnakeCase b.
Proof.
  induction a as [|c a IH]; intros b; simpl; [reflexivity|].
  destruct (is_upper c); rewrite IH; reflexivity.
Qed.

(** X1: [toSnakeCase] works character by character: an upper-case ASCII
    letter becomes an underscore followed by the same letter in lower case
    (code plus 32), any other character is kept.  So it leaves no
    upper-case letter, changes nothing in a string without one, and adds
    one character per upper-case letter. *)
Theorem toSnakeCase_lowercase_underscores : forall s,
  (forall a b, toSnakeCase (a ++ b) = toSnakeCase a ++ toSnakeCase b) /\
  (forall c, is_upper c = true ->
     toSnakeCase (String c "") = String "_" (String (ascii_of_nat (nat_of_ascii c + 32)) "")) /\
  (forall c, is_upper c = false -> toSnakeCase (String c "") = String c "") /\
  has_upper (toSnakeCase s) = false /\
  (has_upper s = false -> toSnakeCase s = s) /\
  (String.length (toSnakeCase s) = String.length s + count_upper s)%nat.
Proof.
  intros s. split; [exact toSnakeCase_app|]. split; [|split; [|exact (toSnakeCase_spec s)]].
  - intros c Hc. simpl. rewrite Hc. unfold lower. cbv zeta.
    unfold is_upper in Hc. cbv zeta in Hc. rewrite Hc. reflexivity.
  - intros c Hc. simpl. rewrite Hc. reflexivity.
Qed.

(** ** [buildQueryString] *)

(** X2: every pair [buildQueryString] puts in the query comes from an entry
    of the parameters object whose value is neither [undefined] nor [null]
    and whose key is neither [perPage] nor [page]: its name is the entry's
    key in snake case (so it holds no upper-case letter) and its value
    [String(value)]. *)
Theorem buildQueryString_pairs_sound : forall params k' v',
  In (k', v') (query_pairs params) ->
  exists k v, In (k, Some v) params /\ v <> JNull /\ k <> "perPage" /\ k <> "page" /\
              k' = toSnakeCase k /\ has_upper k' = false /\ v' = to_string v.
Proof.
  intros params k' v' H. unfold query_pairs in H.
  destruct (query_fold_in _ _ _ H) as [[]|[k [v [[Hin [Hv [H1 H2]]] Hp]]]].
  inversion Hp; subst k' v'.
  exists k, v. repeat split; auto. apply toSnakeCase_spec.
Qed.

(** X3: conversely, every such entry is sent under its snake-case name, and
    no name is sent twice ([URLSearchParams.set] replaces a previous pair of
    the same name). *)
Theorem buildQueryString_pairs_complete : forall params,
  (forall k v, In (k, Some v) params -> v <> JNull -> k <> "perPage" -> k <> "page" ->
     In (toSnakeCase k) (map fst (query_pairs params))) /\
  NoDup (map fst (query_pairs params)).
Proof.
  intros params. split.
  - intros k v Hin Hv H1 H2. apply (query_fold_sent params [] k v). repeat split; assumption.
  - apply query_fold_nodup. constructor.
Qed.

(** ** The form encoding of [URLSearchParams] *)

Lemma hex_digit_form : forall k, (k < 16)%nat -> form_unreserved (hex_digit k) = true.
Proof.
  intros k Hk. do 16 (destruct k as [|k]; [reflexivity|]). lia.
Qed.

Lemma form_decode_hex : forall h1 h2 r a b,
  hex_value h1 = Some a -> hex_value h2 = Some b ->
  form_decode (String "%"%char (String h1 (String h2 r)))
  = String (ascii_of_nat (Z.to_nat (a * 16 + b))) (form_decode r).
Proof. intros h1 h2 r a b H1 H2. cbn [form_decode]. rewrite H1, H2. reflexivity. Qed.

(** Every character of a form-encoded string is kept by the encoder,
    ['+'] or ['%']. *)
Lemma form_chars : forall s c,
  contains_char c (form_urlencode s) = true ->
  form_unreserved c = true \/ c = "+"%char \/ c = "%"%char.
Proof.
  induction s as [|d s IH]; intros c H; simpl in H; [discriminate|].
  destruct (form_unreserved d) eqn:Hd; [|destruct (ascii_eqb d " "%char)]; simpl in H;
    (apply orb_prop in H as [H|H]; [apply Ascii.eqb_eq in H; subst; auto|]); try (apply IH; exact H).
  assert (Hb : (nat_of_ascii d < 256)%nat) by apply nat_ascii_bounded.
  assert (H1 : (nat_of_ascii d / 16 < 16)%nat) by (apply Nat.Div0.div_lt_upper_bound; lia).
  assert (H2 : (nat_of_ascii d mod 16 < 16)%nat) by (apply Nat.mod_upper_bound; lia).
  apply orb_prop in H as [H|H];
    [apply Ascii.eqb_eq in H; subst; left; apply (hex_digit_form _ H1)|].
  apply orb_prop in H as [H|H];
    [apply Ascii.eqb_eq in H; subst; left; apply (hex_digit_form _ H2)|auto].
Qed.

Lemma form_no_char : forall s c,
  form_unreserved c = false -> c <> "+"%char -> c <> "%"%char ->
  contains_char c (form_urlencode s) = false.
Proof.
  intros s c Hu H1 H2. destruct (contains_char c (form_urlencode s)) eqn:E; [|reflexivity].
  destruct (form_chars s c E) as [H|[H|H]]; congruence.
Qed.

Lemma form_urlencode_spec : forall s,
  form_decode (form_urlencode s) = s /\
  contains_char "&" (form_urlencode s) = false /\
  contains_char "=" (form_urlencode s) = false /\
  contains_char "?" (form_urlencode s) = false /\
  contains_char "#" (form_urlencode s) = false /\
  contains_char " " (form_urlencode s) = false.
Proof.
  intros s. split; [|repeat split; apply form_no_char; try reflexivity; discriminate].
  induction s as [|c s IH]; [reflexivity|].
  simpl. destruct (form_unreserved c) eqn:Hc.
  - transitivity (String c (form_decode (form_urlencode s))); [|rewrite IH; reflexivity].
    destruct c as [[] [] [] [] [] [] [] []]; try reflexivity; discriminate Hc.
  - destruct (Ascii.eqb_spec c " "%char) as [->|Hsp].
    + simpl. rewrite IH. reflexivity.
    + assert (Hb : (nat_of_ascii c < 256)%nat) by apply nat_ascii_bounded.
      assert (H1 : (nat_of_ascii c / 16 < 16)%nat) by (apply Nat.Div0.div_lt_upper_bound; lia).
      assert (H2 : (nat_of_ascii c mod 16 < 16)%nat) by (apply Nat.mod_upper_bound; lia).
      destruct (hex_digit_small _ H1) as [Hv1 _].
      destruct (hex_digit_small _ H2) as [Hv2 _].
      unfold ascii_eqb. rewrite (proj2 (Ascii.eqb_neq c " "%char) Hsp).
      rewrite (form_decode_hex _ _ _ _ _ Hv1 Hv2), IH. f_equal.
      rewrite <- (ascii_nat_embedding c) at 3. f_equal.
      rewrite (Nat.div_mod_eq (nat_of_ascii c) 16) at 3. lia.
Qed.

(** X4: each name and value of the query is form-encoded so that decoding
    gives it back, and the encoded text holds none of the characters
    ['&'], ['='], ['?'], ['#'] and space, so a name or value never splits
    its pair, the query or the URL. *)
Theorem form_urlencode_roundtrip : forall s,
  form_decode (form_urlencode s) = s /\
  contains_char "&" (form_urlencode s) = false /\
  contains_char "=" (form_urlencode s) = false /\
  contains_char "?" (form_urlencode s) = false /\
  contains_char "#" (form_urlencode s) = false /\
  contains_char " " (form_urlencode s) = false.
Proof. exact form_urlencode_spec. Qed.

(** ** The URL of a list call *)













Lemma string_app_nil_r : forall s : string, s ++ "" = s.
Proof. induction s as [|c s IH]; simpl; [reflexivity|]. rewrite IH. reflexivity. Qed.







(** ** Pagination *)

(** Adding one to an integer below [2^53] in magnitude is exact. *)
Lemma num_add_one : forall z, - 2 ^ 53 <= z < 2 ^ 53 -> num_add (Int z) (Int 1) = Int (z + 1).
Proof.
  intros z Hz. unfold num_add. cbn [num_ratio]. rewrite !Z.mul_1_r.
  exact (num_of_Z_exact (z + 1) ltac:(lia)).
Qed.

Lemma num_le_succ_lt : forall z t, (forall m e, t <> Dyadic m e) ->
  num_le (Int (z + 1)) t = num_lt (Int z) t.
Proof.
  intros z [|w|m e|[]] Ht; try reflexivity; [|exfalso; exact (Ht m e eq_refl)].
  unfold num_le, num_lt. cbn [num_compare num_ratio]. rewrite !Z.mul_1_r.
  destruct (Z.compare_spec (z + 1) w), (Z.compare_spec z w); try reflexivity; lia.
Qed.

(** X6: for a page number that is an integer below [2^53] in magnitude
    and a [totalPages] that is an integer, NaN or infinite,
    [getNextPage] gives a page exactly when [hasMoreItems] holds, and that
    page is the following one and never beyond [totalPages]. *)
Theorem getNextPage_iff_hasMoreItems : forall z t,
  - 2 ^ 53 <= z < 2 ^ 53 -> (forall m e, t <> Dyadic m e) ->
  (Pagination.getNextPage (Int z) t <> None <-> Pagination.hasMoreItems (Int z) t = true) /\
  (forall n, Pagination.getNextPage (Int z) t = Some n -> n = Int (z + 1) /\ num_le n t = true).
Proof.
  intros z t Hz Ht. unfold Pagination.getNextPage, Pagination.hasMoreItems.
  rewrite (num_add_one z Hz), <- (num_le_succ_lt z t Ht).
  destruct (num_le (Int (z + 1)) t) eqn:Hle.
  - split; [split; intros; [reflexivity | discriminate]|].
    intros n Hn. inversion Hn; subst n. split; [reflexivity | exact Hle].
  - split; [split; intros H; [exfalso; apply H; reflexivity | discriminate]|].
    intros n Hn. discriminate Hn.
Qed.

Lemma requestWithPagination_ok : forall tr cl endpoint params options log r pr,
  (forall q, tr q = Ok r) ->
  fst (requestWithPagination tr cl endpoint params options log) = Ok pr ->
  total pr = header_num r "X-Total" /\ totalPages pr = header_num r "X-Total-Pages" /\
  nextPage pr = header_num r "X-Next-Page" /\ pr_page pr = None /\
  hasMore pr = match header_num r "X-Next-Page" with Some _ => true | None => false end.
Proof.
  intros tr cl endpoint params options log r pr Htr H.
  unfold requestWithPagination, bind, lift, fetch, ret in H.
  destruct (getAuthHeaders cl) as [auth|e]; [|discriminate].
  rewrite Htr in H.
  destruct (check_status r); [|discriminate].
  destruct (response_json r) as [its|e]; [|discriminate].
  destruct (js_get (Some its) "length") as [cnt|e]; [|discriminate].
  simpl in H. inversion H; subst pr. repeat split.
Qed.

(** X7: the envelope of the paginated-list executor agrees with
    [parseGitLabPaginationHeaders] on the response's headers for [total],
    [totalPages] and [nextPage], and has [hasMore] exactly when the parsed
    [nextPage] is defined. *)
Theorem executor_agrees_with_parseGitLabPaginationHeaders :
  forall tr cl endpoint params options log r pr,
  (forall q, tr q = Ok r) ->
  fst (requestWithPagination tr cl endpoint params options log) = Ok pr ->
  let h := Pagination.parseGitLabPaginationHeaders (resp_headers r) in
  total pr = Pagination.h_total h /\ totalPages pr = Pagination.h_totalPages h /\
  nextPage pr = Pagination.h_nextPage h /\
  hasMore pr = match Pagination.h_nextPage h with Some _ => true | None => false end.
Proof.
  intros tr cl endpoint params options log r pr Htr H h.
  destruct (requestWithPagination_ok _ _ _ _ _ _ _ _ Htr H) as [H1 [H2 [H3 [_ H5]]]].
  rewrite H1, H2, H3, H5. repeat split.
Qed.

Lemma join_cons : forall sep x l,
  join sep (x :: l) = x ++ match l with [] => "" | _ => sep ++ join sep l end.
Proof. intros sep x [|y l]; simpl; [rewrite string_app_nil_r|]; reflexivity. Qed.

(** X8: the pagination line [formatPaginationInfo] writes under a list the
    paginated-list executor returned always shows page 1: when [X-Total]
    is present and non-empty the text starts with
    [**Total:** <X-Total> | **Page:** 1/], whatever [X-Page] says. *)
Theorem formatPaginationInfo_shows_page_1 :
  forall tr cl endpoint params options log r pr t,
  (forall q, tr q = Ok r) ->
  fst (requestWithPagination tr cl endpoint params options log) = Ok pr ->
  headers_get (resp_headers r) "X-Total" = Some t -> t <> "" ->
  exists rest, formatPaginationInfo pr =
    "**Total:** " ++ num_to_string (parseInt10 t) ++ " | **Page:** 1/" ++ rest.
Proof.
  intros tr cl endpoint params options log r pr t Htr H Ht Hne.
  destruct (requestWithPagination_ok _ _ _ _ _ _ _ _ Htr H) as [H1 [_ [_ [H4 _]]]].
  assert (Htot : total pr = Some (parseInt10 t)).
  { rewrite H1. unfold header_num. rewrite Ht. simpl.
    destruct (String.eqb_spec t ""); [contradiction | reflexivity]. }
  unfold formatPaginationInfo. rewrite Htot, H4. cbn [app]. rewrite join_cons.
  eexists. rewrite !string_app_assoc. reflexivity.
Qed.



(** ** Tenant credentials and the client *)

Lemma lower_not_upper : forall c, is_upper c = false -> lower c = c.
Proof. intros c H. unfold lower, is_upper in *; cbv zeta in *. rewrite H. reflexivity. Qed.

Lemma lower_string_idem : forall s, lower_string (lower_string s) = lower_string s.
Proof.
  induction s as [|c s IH]; simpl; [reflexivity|].
  rewrite lower_not_upper by apply is_upper_lower. rewrite IH. reflexivity.
Qed.

Lemma headers_get_rename : forall (f : string -> string) h name,
  (forall k, lower_string (f k) = lower_string k) ->
  headers_get (map (fun kv => (f (fst kv), snd kv)) h) name = headers_get h name.
Proof.
  intros f h name Hf. unfold headers_get.
  assert (E : map snd (filter (fun kv => String.eqb (lower_string (fst kv)) (lower_string name))
                         (map (fun kv => (f (fst kv), snd kv)) h))
              = map snd (filter (fun kv => String.eqb (lower_string (fst kv)) (lower_string name)) h)).
  { induction h as [|[k v] r IH]; simpl; [reflexivity|].
    rewrite Hf. destruct (String.eqb (lower_string k) (lower_string name)); simpl;
      rewrite IH; reflexivity. }
  rewrite E. reflexivity.
Qed.

(** X10: [parseTenantCredentials] reads its headers case-insensitively:
    renaming the inbound header fields in any way that keeps their
    lower-case form (all lower case, all upper case, ...) gives the same
    credentials. *)
Theorem parseTenantCredentials_case_insensitive : forall (f : string -> string) h,
  (forall k, lower_string (f k) = lower_string k) ->
  parseTenantCredentials (map (fun kv => (f (fst kv), snd kv)) h) = parseTenantCredentials h.
Proof.
  intros f h Hf. unfold parseTenantCredentials. rewrite !(headers_get_rename f h _ Hf).
  reflexivity.
Qed.

Lemma validateCredentials_getAuthHeaders_agree : forall c,
  validateCredentials c = Ok tt <-> exists auth, getAuthHeaders (createGitLabClient c) = Ok auth.
Proof.
  intros [pt bu atk]. unfold validateCredentials, getAuthHeaders, or_undefined; simpl.
  destruct atk as [a|]; [destruct (String.eqb a "") eqn:Ea|];
    (destruct pt as [p|]; [destruct (String.eqb p "") eqn:Ep|]); simpl;
    try rewrite Ea; try rewrite Ep; simpl; split; intros H;
    try (eexists; reflexivity); try reflexivity; try discriminate;
    destruct H as [auth H]; discriminate.
Qed.

(** X11: the Worker's check and the client agree: [validateCredentials]
    accepts the credentials exactly when the client built from them
    produces authentication headers, so behind the Worker the client's
    "No credentials provided" error cannot occur. *)
Theorem validateCredentials_iff_getAuthHeaders : forall c,
  validateCredentials c = Ok tt <-> exists auth, getAuthHeaders (createGitLabClient c) = Ok auth.
Proof. exact validateCredentials_getAuthHeaders_agree. Qed.

(** X12: the client built from the inbound headers sends every
    single-resource request to the [X-GitLab-Base-URL] header's value
    followed by the endpoint, or to [https://gitlab.com/api/v4] when that
    header is absent or empty. *)
Theorem request_url_from_base_url_header : forall h tr endpoint options log auth,
  getAuthHeaders (createGitLabClient (parseTenantCredentials h)) = Ok auth ->
  exists q, snd (request tr (createGitLabClient (parseTenantCredentials h)) endpoint options log)
            = (log ++ [q])%list /\
    f_url q = (match headers_get h "X-GitLab-Base-URL" with
               | Some u => if String.eqb u "" then DEFAULT_API_BASE_URL else u
               | None => DEFAULT_API_BASE_URL
               end) ++ endpoint.
Proof.
  intros h tr endpoint options log auth Hauth.
  eexists; split; [apply request_log; exact Hauth|]. cbn [f_url]. f_equal.
  unfold createGitLabClient, parseTenantCredentials, or_undefined; simpl.
  destruct (headers_get h "X-GitLab-Base-URL") as [u|]; [|reflexivity]. simpl.
  destruct (String.eqb u "") eqn:E; simpl; rewrite ?E; reflexivity.
Qed.

(** X13: a client whose credentials hold neither a (non-empty) access
    token nor a private token throws [AuthenticationError] from every
    call, single-resource, paginated or raw-text, before any request is
    handed to the transport. *)
Theorem no_credentials_no_request :
  forall tr cl endpoint options params pid filePath ref jobId log,
  truthy_str (accessToken (credentials cl)) = false ->
  truthy_str (privateToken (credentials cl)) = false ->
  let e := AuthenticationError
             "No credentials provided. Include X-GitLab-Token or X-GitLab-Access-Token header." in
  request tr cl endpoint options log = (Throw e, log) /\
  requestWithPagination tr cl endpoint params options log = (Throw e, log) /\
  getFileRaw tr cl pid filePath ref log = (Throw e, log) /\
  getJobLog tr cl pid jobId log = (Throw e, log).
Proof.
  intros tr cl endpoint options params pid filePath ref jobId log Ha Hp e.
  assert (Hauth : getAuthHeaders cl = Throw e).
  { unfold getAuthHeaders. apply or_undefined_truthy in Ha, Hp. rewrite Ha, Hp. reflexivity. }
  unfold request, requestWithPagination, getFileRaw, getJobLog, bind, lift.
  rewrite Hauth. repeat split.
Qed.

(** X14: the raw-text calls [getFileRaw] and [getJobLog] hand one GET
    request carrying the authentication headers to the transport and
    return the body as it is (JSON or not) for a 2xx status; any other
    status, 401, 403 and 429 included, throws [GitLabApiError] with the
    message "Failed to get file: <status>" or "Failed to get job log:
    <status>". *)
Theorem raw_text_calls : forall tr cl pid filePath ref jobId log auth r,
  getAuthHeaders cl = Ok auth -> (forall q, tr q = Ok r) ->
  getFileRaw tr cl pid filePath ref log =
    (if ok r then Ok (body r)
     else Throw (GitLabApiError (JStr ("Failed to get file: " ++ Z_to_string (status r))) (status r)),
     (log ++ [{| f_url := client_baseUrl cl ++ "/projects/" ++ encodeURIComponent (String_of_Id pid)
                          ++ "/repository/files/" ++ encodeURIComponent filePath ++ "/raw?ref="
                          ++ encodeURIComponent ref;
                 f_method := "GET"; f_headers := auth; f_body := None |}])%list) /\
  getJobLog tr cl pid jobId log =
    (if ok r then Ok (body r)
     else Throw (GitLabApiError (JStr ("Failed to get job log: " ++ Z_to_string (status r)))
                   (status r)),
     (log ++ [{| f_url := client_baseUrl cl ++ "/projects/" ++ encodeURIComponent (String_of_Id pid)
                          ++ "/jobs/" ++ Z_to_string jobId ++ "/trace";
                 f_method := "GET"; f_headers := auth; f_body := None |}])%list).
Proof.
  intros tr cl pid filePath ref jobId log auth r Hauth Htr.
  unfold getFileRaw, getJobLog, bind, lift, fetch, ret, raise.
  rewrite Hauth, !Htr. split; destruct (ok r); reflexivity.
Qed.

(** ** Status checks *)

Lemma check_status_spec : forall r, check_status r = Ok tt <-> ok r = true.
Proof.
  intros r. unfold check_status, ok.
  destruct (Z.eqb_spec (status r) 429) as [E|E];
    [rewrite E; simpl; split; intros H; discriminate|].
  destruct (Z.eqb_spec (status r) 401) as [E1|E1];
    [rewrite E1; simpl; split; intros H; discriminate|].
  destruct (Z.eqb_spec (status r) 403) as [E2|E2];
    [rewrite E2; simpl; split; intros H; discriminate|].
  simpl. destruct ((200 <=? status r) && (status r <=? 299)); simpl;
    split; intros H; try reflexivity; discriminate.
Qed.

(** X15: the status checks of the executors pass exactly the 2xx
    responses: every other status throws. *)
Theorem check_status_ok_iff_2xx : forall r, check_status r = Ok tt <-> ok r = true.
Proof. exact check_status_spec. Qed.

(** X16: a 2xx response to the single-resource executor gives [undefined]
    for 204 without reading the body, and otherwise the parsed JSON body,
    or the [SyntaxError] that [JSON.parse] throws when the body is not
    JSON. *)
Theorem request_2xx_result : forall tr cl endpoint options log auth r,
  getAuthHeaders cl = Ok auth -> (forall q, tr q = Ok r) -> ok r = true ->
  fst (request tr cl endpoint options log) =
    if status r =? 204 then Ok None
    else match JSON_parse (body r) with
         | Some j => Ok (Some j)
         | None => Throw (SyntaxError (syntax_error_message r))
         end.
Proof.
  intros tr cl endpoint options log auth r Hauth Htr Hok.
  rewrite (request_run tr cl endpoint options log auth r Hauth Htr).
  rewrite (proj2 (check_status_spec r) Hok).
  destruct (status r =? 204); [reflexivity|].
  unfold response_json. destruct (JSON_parse (body r)); reflexivity.
Qed.

(** ** The Worker *)

(** X17: a Worker request other than [POST /mcp] never reaches the MCP
    handler or the transport: its answer does not depend on the handler
    and no request is logged. *)
Theorem worker_only_post_mcp_reaches_handler : forall handler handler' req log,
  (pathname req <> "/mcp" \/ req_method req <> "POST") ->
  worker_fetch handler req log = worker_fetch handler' req log /\
  snd (worker_fetch handler req log) = log.
Proof.
  intros handler handler' req log H. unfold worker_fetch.
  assert (Hm : (String.eqb (pathname req) "/mcp" && String.eqb (req_method req) "POST") = false).
  { destruct H as [H|H]; [apply andb_false_intro1 | apply andb_false_intro2];
      apply String.eqb_neq; exact H. }
  rewrite Hm.
  destruct (String.eqb (pathname req) "/health"); [split; reflexivity|].
  destruct (String.eqb (pathname req) "/sse"); split; reflexivity.
Qed.

(** X18: a [POST /mcp] request is either refused with a 401 JSON answer
    before any request reaches the transport, or handed to the MCP handler
    with a client whose credentials are the ones read from the request's
    headers and whose authentication headers can be built. *)
Theorem worker_mcp_client_has_auth : forall handler req log,
  pathname req = "/mcp" -> req_method req = "POST" ->
  (exists cl auth, credentials cl = parseTenantCredentials (req_headers req) /\
     getAuthHeaders cl = Ok auth /\ worker_fetch handler req log = handler cl req log) \/
  (snd (worker_fetch handler req log) = log /\
     exists b, fst (worker_fetch handler req log) = Ok (WJson 401 b)).
Proof.
  intros handler req log Hp Hm. unfold worker_fetch. rewrite Hp, Hm. simpl.
  destruct (validateCredentials (parseTenantCredentials (req_headers req))) as [[]|e] eqn:Ev.
  - left. destruct (proj1 (validateCredentials_getAuthHeaders_agree _) Ev) as [auth Ha].
    exists (createGitLabClient (parseTenantCredentials (req_headers req))), auth.
    repeat split; exact Ha.
  - right. split; [reflexivity | eexists; reflexivity].
Qed.

(** ** The header merge of the executors *)

Fixpoint assoc_first (k : string) (h : headers) : option string :=
  match h with
  | [] => None
  | (k', v) :: r => if String.eqb k k' then Some v else assoc_first k r
  end.

Lemma assoc_first_set_field : forall k v h x,
  assoc_first x (set_field k v h) = if String.eqb x k then Some v else assoc_first x h.
Proof.
  intros k v h x. induction h as [|[k' v'] r IH]; simpl.
  - destruct (String.eqb x k); reflexivity.
  - destruct (String.eqb_spec k k') as [->|Hne]; simpl.
    + destruct (String.eqb x k'); reflexivity.
    + destruct (String.eqb_spec x k') as [->|Hx]; simpl.
      * destruct (String.eqb_spec k' k); [congruence | reflexivity].
      * exact IH.
Qed.

Lemma keys_set_field : forall k v h,
  map fst (set_field k v h) = if existsb (String.eqb k) (map fst h) then map fst h
                              else (map fst h ++ [k])%list.
Proof.
  intros k v h. induction h as [|[k' v'] r IH]; simpl; [reflexivity|].
  destruct (String.eqb_spec k k') as [->|Hne]; simpl; [reflexivity|].
  rewrite IH. destruct (existsb (String.eqb k) (map fst r)); reflexivity.
Qed.

Lemma nodup_set_field : forall k v h, NoDup (map fst h) -> NoDup (map fst (set_field k v h)).
Proof.
  intros k v h H. rewrite keys_set_field.
  destruct (existsb (String.eqb k) (map fst h)) eqn:E; [exact H|].
  apply NoDup_app; [exact H | repeat constructor; auto |].
  intros x Hx [->|[]]. assert (Hin : existsb (String.eqb x) (map fst h) = true).
  { apply existsb_exists. exists x. split; [exact Hx | apply String.eqb_refl]. }
  congruence.
Qed.

(** X19: the outbound headers [{...authHeaders, ...options.headers}] of the
    executors: a field of the caller's headers overrides the
    authentication field of the same name (the caller's last one wins),
    the other authentication fields stay, and no field name appears twice
    when the authentication headers have none twice. *)
Theorem spread_overrides_without_duplicates : forall a b,
  (forall k, assoc_first k (spread a b) =
             match assoc_first k (rev b) with Some v => Some v | None => assoc_first k a end) /\
  (NoDup (map fst a) -> NoDup (map fst (spread a b))).
Proof.
  intros a b. unfold spread. revert a. induction b as [|[k v] b IH]; intros a; simpl.
  - split; [reflexivity | auto].
  - destruct (IH (set_field k v a)) as [IH1 IH2]. split.
    + intros x. rewrite IH1, assoc_first_set_field.
      assert (Hr : forall l, assoc_first x (l ++ [(k, v)])%list =
                             match assoc_first x l with
                             | Some w => Some w
                             | None => if String.eqb x k then Some v else None end).
      { induction l as [|[k' v'] l IHl]; simpl; [reflexivity|].
        destruct (String.eqb x k'); [reflexivity | exact IHl]. }
      rewrite Hr. destruct (assoc_first x (rev b)); [reflexivity|].
      destruct (String.eqb x k); reflexivity.
    + intros H. apply IH2, nodup_set_field, H.
Qed.

(** ** Environment settings *)

Lemma json_digits_prefix : forall d rest acc,
  all_digits d = true ->
  match rest with String c _ => is_digit c = false | EmptyString => True end ->
  json_digits (d ++ rest) acc =
  (fold_left (fun a c => a * 10 + digit_value c) (list_ascii_of_string d) acc, rest).
Proof.
  induction d as [|c d IH]; intros rest acc Hd Hr; simpl in *.
  - destruct rest as [|c r]; [reflexivity|]. simpl. rewrite Hr. reflexivity.
  - apply andb_prop in Hd as [Hc Hd]. rewrite Hc. apply IH; assumption.
Qed.

Lemma round_ratio_not_NaN : forall a b, round_ratio a b <> NaN.
Proof.
  intros a b. unfold round_ratio, dyadic_canon. cbv zeta.
  repeat match goal with |- context [if ?c then _ else _] => destruct c end; discriminate.
Qed.

(** A parsed or rounded number is never NaN. *)
Lemma num_of_ratio_not_NaN : forall neg a b, num_of_ratio neg a b <> NaN.
Proof.
  intros neg a b. unfold num_of_ratio. destruct (a =? 0); [discriminate|].
  destruct neg; [|apply round_ratio_not_NaN].
  intros H. destruct (round_ratio a b) eqn:E; try discriminate H.
  exact (round_ratio_not_NaN a b E).
Qed.

(** X20: [getEnvNumber] reads a value that starts with decimal digits as
    the number those digits denote, rounded to a double (exact up to
    [2^53]), whatever follows them ("100kb" gives 100). *)
Theorem getEnvNumber_digit_prefix : forall env key dflt digits rest,
  env_string env key = Some (digits ++ rest) -> digits <> ""%string ->
  all_digits digits = true ->
  match rest with String c _ => is_digit c = false | EmptyString => True end ->
  getEnvNumber env key dflt = num_of_Z (decimal_value digits) /\
  (decimal_value digits <= 2 ^ 53 -> getEnvNumber env key dflt = Int (decimal_value digits)).
Proof.
  intros env key dflt digits rest He Hne Hd Hr.
  assert (Hnn := decimal_value_nonneg _ Hd).
  assert (H : getEnvNumber env key dflt = num_of_Z (decimal_value digits)).
  { unfold getEnvNumber. rewrite He.
    destruct digits as [|c d]; [congruence|].
    pose proof Hd as Hd'. simpl in Hd'. apply andb_prop in Hd' as [Hc _].
    change (String c d ++ rest)%string with (String c (d ++ rest)).
    rewrite parseInt10_digit_head by exact Hc.
    change (String c (d ++ rest)) with (String c d ++ rest)%string.
    rewrite json_digits_prefix by assumption. cbn [fst].
    change (fold_left (fun a c0 => a * 10 + digit_value c0) (list_ascii_of_string (String c d)) 0)
      with (decimal_value (String c d)).
    replace (num_of_ratio false (decimal_value (String c d)) 1)
      with (num_of_Z (decimal_value (String c d))).
    2:{ unfold num_of_Z. rewrite Z.abs_eq by lia.
        replace (decimal_value (String c d) <? 0) with false
          by (symmetry; apply Z.ltb_ge; lia). reflexivity. }
    destruct (num_of_Z (decimal_value (String c d))) eqn:E; try reflexivity.
    exfalso. exact (num_of_ratio_not_NaN _ _ _ E). }
  split; [exact H|]. intros Hle. rewrite H. apply num_of_Z_exact. lia.
Qed.

(** X21: [getEnvNumber] falls back to the default when the key holds no
    string (an unset variable or a binding) or when the string, after
    leading white space, starts with neither a digit nor a sign; so
    [getCharacterLimit], [getDefaultPageSize] and [getMaxPageSize] give
    50000, 20 and 100 for unset variables. *)
Theorem getEnvNumber_falls_back : forall env key dflt,
  (env_string env key = None \/
   exists s, env_string env key = Some s /\
     match trim_start s with
     | EmptyString => True
     | String c _ => is_digit c = false /\ c <> "-"%char /\ c <> "+"%char
     end) ->
  getEnvNumber env key dflt = dflt /\
  (CHARACTER_LIMIT env = None -> getCharacterLimit env = 50000) /\
  (DEFAULT_PAGE_SIZE env = None -> getDefaultPageSize env = 20) /\
  (MAX_PAGE_SIZE env = None -> getMaxPageSize env = 100).
Proof.
  intros env key dflt H.
  split; [|unfold getCharacterLimit, getDefaultPageSize, getMaxPageSize, getEnvNumber; simpl;
           repeat split; intros E; rewrite E; reflexivity].
  unfold getEnvNumber. destruct H as [H|[s [H Hs]]]; rewrite H; [reflexivity|].
  unfold parseInt10. destruct (trim_start s) as [|c r]; [reflexivity|].
  destruct Hs as [Hd [Hm Hp]].
  destruct c as [[] [] [] [] [] [] [] []]; try discriminate Hd;
    try (exfalso; apply Hm; reflexivity); try (exfalso; apply Hp; reflexivity); reflexivity.
Qed.

(** ** More of the executors *)

(** X23: [testConnection] hands exactly one request to the transport, a
    GET of [<baseUrl>/user] with the authentication headers, whatever the
    transport answers. *)
Theorem testConnection_one_request : forall tr cl log auth,
  getAuthHeaders cl = Ok auth ->
  snd (testConnection tr cl log) =
  (log ++ [{| f_url := client_baseUrl cl ++ "/user"; f_method := "GET";
              f_headers := spread auth []; f_body := None |}])%list.
Proof.
  intros tr cl log auth Hauth. unfold testConnection.
  pose proof (request_log tr cl "/user" default_init log auth Hauth) as H.
  unfold getCurrentUser.
  destruct (request tr cl "/user" default_init log) as [[u|e] s'] eqn:E; simpl in H.
  - destruct (js_get u "username"); exact H.
  - exact H.
Qed.

(** X24: the paginated-list executor has no 204 case: a 2xx response whose
    body is not JSON, an empty 204 included, makes it throw the
    [SyntaxError] of [JSON.parse]. *)
Theorem requestWithPagination_2xx_not_json : forall tr cl endpoint params options log auth r,
  getAuthHeaders cl = Ok auth -> (forall q, tr q = Ok r) -> ok r = true ->
  JSON_parse (body r) = None ->
  fst (requestWithPagination tr cl endpoint params options log)
  = Throw (SyntaxError (syntax_error_message r)).
Proof.
  intros tr cl endpoint params options log auth r Hauth Htr Hok Hj.
  run_executor Hauth Htr. rewrite (proj2 (check_status_spec r) Hok).
  unfold response_json. rewrite Hj. reflexivity.
Qed.

(** X25: [formatPaginationInfo] writes nothing exactly when [total] is
    undefined and the next-page line is left out, which happens when
    [hasMore] is false or [nextPage] is not a non-zero number: an envelope
    with [hasMore] but a [NaN] or [0] next page shows no next page. *)
Theorem formatPaginationInfo_empty_iff : forall pr,
  formatPaginationInfo pr = ""%string <->
  total pr = None /\ hasMore pr && truthy_opt_num (nextPage pr) = false.
Proof.
  intros [it c t hm pg np tp]. unfold formatPaginationInfo; simpl.
  destruct t as [t|], np as [[|z|m e|b]|], hm; simpl;
    try destruct (z =? 0); simpl; split; intros H;
    try discriminate H; try (split; reflexivity);
    destruct H as [H1 H2]; discriminate.
Qed.

(** * Witnesses of the properties above *)

Definition ex_client : GitLabClient :=
  createGitLabClient {| privateToken := Some "glpat-x";
                        baseUrl := Some "https://gitlab.example.com/api/v4";
                        accessToken := None |}.

Definition ex_params : js_object :=
  [("orderBy", Some (JStr "name")); ("perPage", Some (JNum 20)); ("search", None);
   ("archived", Some JNull)].

(** The last page of a list: [X-Page: 3], no next page. *)
Definition ex_list_response : response :=
  {| status := 200;
     resp_headers := [("X-Total", "42"); ("X-Total-Pages", "3"); ("X-Page", "3");
                      ("X-Next-Page", "")];
     body := "[]"; syntax_error_message := EmptyString |}.

Definition ex_pr : PaginatedResponse :=
  Eval vm_compute in
    match fst (requestWithPagination (fun _ => Ok ex_list_response) ex_client "/projects" None
                 default_init []) with
    | Ok pr => pr
    | Throw _ => Pagination.emptyPaginatedResponse
    end.

Definition ex_r204 : response := {| status := 204; resp_headers := []; body := ""; syntax_error_message := "Unexpected end of JSON input" |}.

Definition ex_r401 : response := {| status := 401; resp_headers := []; body := "{}"; syntax_error_message := EmptyString |}.

Definition ex_handler (cl : GitLabClient) (req : WorkerRequest) : M WorkerResponse :=
  _ <- request (fun _ => Ok ex_r204) cl "/user" default_init ;; ret (WStream 200).

Definition ex_env : Env :=
  {| CHARACTER_LIMIT := Some "100kb"; DEFAULT_PAGE_SIZE := Some "unlimited";
     MAX_PAGE_SIZE := None |}.

Lemma buildQueryString_pairs_sound_witness :
  exists k v, In (k, Some v) ex_params /\ v <> JNull /\ k <> "perPage" /\ k <> "page" /\
              "order_by" = toSnakeCase k /\ has_upper "order_by" = false /\ "name" = to_string v.
Proof.
  apply (buildQueryString_pairs_sound ex_params "order_by" "name"). vm_compute. left. reflexivity.
Defined.


Lemma executor_agrees_with_parseGitLabPaginationHeaders_witness :
  let h := Pagination.parseGitLabPaginationHeaders (resp_headers ex_list_response) in
  total ex_pr = Pagination.h_total h /\ totalPages ex_pr = Pagination.h_totalPages h /\
  nextPage ex_pr = Pagination.h_nextPage h /\
  hasMore ex_pr = match Pagination.h_nextPage h with Some _ => true | None => false end.
Proof.
  exact (executor_agrees_with_parseGitLabPaginationHeaders (fun _ => Ok ex_list_response)
           ex_client "/projects" None default_init [] ex_list_response ex_pr
           (fun _ => eq_refl) eq_refl).
Defined.

Lemma formatPaginationInfo_shows_page_1_witness :
  exists rest, formatPaginationInfo ex_pr = "**Total:** 42 | **Page:** 1/" ++ rest.
Proof.
  exact (formatPaginationInfo_shows_page_1 (fun _ => Ok ex_list_response) ex_client "/projects"
           None default_init [] ex_list_response ex_pr "42" (fun _ => eq_refl) eq_refl eq_refl
           ltac:(discriminate)).
Defined.

Lemma getNextPage_iff_hasMoreItems_witness :
  Pagination.getNextPage (Int 2) (Int 3) = Some (Int 3) /\
  Pagination.hasMoreItems (Int 2) (Int 3) = true.
Proof.
  destruct (getNextPage_iff_hasMoreItems 2 (Int 3) ltac:(lia) ltac:(discriminate))
    as [[H1 H2] H3].
  split; [|apply H1; discriminate].
  destruct (Pagination.getNextPage (Int 2) (Int 3)) as [n|] eqn:E.
  - destruct (H3 n eq_refl) as [-> _]. reflexivity.
  - exfalso. exact (H2 eq_refl eq_refl).
Defined.


Lemma parseTenantCredentials_case_insensitive_witness :
  parseTenantCredentials (map (fun kv => (lower_string (fst kv), snd kv))
                              [("X-GITLAB-TOKEN", "glpat-x")])
  = parseTenantCredentials [("X-GITLAB-TOKEN", "glpat-x")].
Proof.
  exact (parseTenantCredentials_case_insensitive lower_string [("X-GITLAB-TOKEN", "glpat-x")]
           lower_string_idem).
Defined.

Lemma request_url_from_base_url_header_witness :
  exists q, snd (request (fun _ => Ok ex_r204)
                   (createGitLabClient (parseTenantCredentials
                      [("X-GitLab-Token", "glpat-x");
                       ("x-gitlab-base-url", "https://gitlab.example.com/api/v4")]))
                   "/user" default_init []) = ([] ++ [q])%list /\
    f_url q = "https://gitlab.example.com/api/v4/user".
Proof.
  exact (request_url_from_base_url_header
           [("X-GitLab-Token", "glpat-x");
            ("x-gitlab-base-url", "https://gitlab.example.com/api/v4")]
           (fun _ => Ok ex_r204) "/user" default_init [] _ eq_refl).
Defined.

Lemma no_credentials_no_request_witness :
  let cl := createGitLabClient {| privateToken := Some ""; baseUrl := None; accessToken := None |} in
  let e := AuthenticationError
             "No credentials provided. Include X-GitLab-Token or X-GitLab-Access-Token header." in
  request (fun _ => Ok ex_r204) cl "/user" default_init [] = (Throw e, []) /\
  requestWithPagination (fun _ => Ok ex_r204) cl "/user" None default_init [] = (Throw e, []) /\
  getFileRaw (fun _ => Ok ex_r204) cl (IdNum 7) "README.md" "main" [] = (Throw e, []) /\
  getJobLog (fun _ => Ok ex_r204) cl (IdNum 7) 12 [] = (Throw e, []).
Proof.
  exact (no_credentials_no_request (fun _ => Ok ex_r204)
           (createGitLabClient {| privateToken := Some ""; baseUrl := None; accessToken := None |})
           "/user" default_init None (IdNum 7) "README.md" "main" 12 [] eq_refl eq_refl).
Defined.

Lemma raw_text_calls_witness :
  fst (getFileRaw (fun _ => Ok ex_r401) ex_client (IdStr "group/project") "README.md" "main" [])
  = Throw (GitLabApiError (JStr "Failed to get file: 401") 401) /\
  fst (getJobLog (fun _ => Ok ex_r401) ex_client (IdStr "group/project") 12 [])
  = Throw (GitLabApiError (JStr "Failed to get job log: 401") 401).
Proof.
  destruct (raw_text_calls (fun _ => Ok ex_r401) ex_client (IdStr "group/project") "README.md"
              "main" 12 [] _ ex_r401 eq_refl (fun _ => eq_refl)) as [H1 H2].
  rewrite H1, H2. split; reflexivity.
Defined.

Lemma request_2xx_result_witness :
  fst (request (fun _ => Ok ex_r204) ex_client "/user" default_init []) = Ok None.
Proof.
  exact (request_2xx_result (fun _ => Ok ex_r204) ex_client "/user" default_init [] _ ex_r204
           eq_refl (fun _ => eq_refl) eq_refl).
Defined.

Lemma worker_only_post_mcp_reaches_handler_witness :
  let req := {| pathname := "/health"; req_method := "POST";
                req_headers := [("X-GitLab-Token", "glpat-x")] |} in
  worker_fetch ex_handler req [] = worker_fetch (fun _ _ => ret (WStream 200)) req [] /\
  snd (worker_fetch ex_handler req []) = [].
Proof.
  intros req. apply (worker_only_post_mcp_reaches_handler ex_handler (fun _ _ => ret (WStream 200))).
  left. discriminate.
Defined.

Lemma worker_mcp_client_has_auth_witness :
  let req := {| pathname := "/mcp"; req_method := "POST";
                req_headers := [("X-GitLab-Token", "glpat-x")] |} in
  (exists cl auth, credentials cl = parseTenantCredentials (req_headers req) /\
     getAuthHeaders cl = Ok auth /\ worker_fetch ex_handler req [] = ex_handler cl req []) \/
  (snd (worker_fetch ex_handler req []) = [] /\
     exists b, fst (worker_fetch ex_handler req []) = Ok (WJson 401 b)).
Proof.
  exact (worker_mcp_client_has_auth ex_handler
           {| pathname := "/mcp"; req_method := "POST";
              req_headers := [("X-GitLab-Token", "glpat-x")] |} [] eq_refl eq_refl).
Defined.

Lemma getEnvNumber_digit_prefix_witness : getCharacterLimit ex_env = Int 100.
Proof.
  unfold getCharacterLimit.
  rewrite (proj2 (getEnvNumber_digit_prefix ex_env K_CHARACTER_LIMIT 50000 "100" "kb"
                    eq_refl ltac:(discriminate) eq_refl eq_refl)).
  - reflexivity.
  - vm_compute. discriminate.
Defined.

Lemma getEnvNumber_falls_back_witness :
  getDefaultPageSize ex_env = 20 /\
  (CHARACTER_LIMIT ex_env = None -> getCharacterLimit ex_env = 50000) /\
  (DEFAULT_PAGE_SIZE ex_env = None -> getDefaultPageSize ex_env = 20) /\
  (MAX_PAGE_SIZE ex_env = None -> getMaxPageSize ex_env = 100).
Proof.
  apply (getEnvNumber_falls_back ex_env K_DEFAULT_PAGE_SIZE 20).
  right. exists "unlimited". split; [reflexivity|]. simpl.
  split; [reflexivity | split; discriminate].
Defined.

Lemma testConnection_one_request_witness :
  snd (testConnection (fun _ => Ok ex_r204) ex_client []) =
  [{| f_url := "https://gitlab.example.com/api/v4/user"; f_method := "GET";
      f_headers := [("PRIVATE-TOKEN", "glpat-x"); ("Content-Type", "application/json")];
      f_body := None |}].
Proof.
  exact (testConnection_one_request (fun _ => Ok ex_r204) ex_client [] _ eq_refl).
Defined.

Lemma requestWithPagination_2xx_not_json_witness :
  fst (requestWithPagination (fun _ => Ok ex_r204) ex_client "/projects" None default_init [])
  = Throw (SyntaxError "Unexpected end of JSON input").
Proof.
  exact (requestWithPagination_2xx_not_json (fun _ => Ok ex_r204) ex_client "/projects" None
           default_init [] _ ex_r204 eq_refl (fun _ => eq_refl) eq_refl eq_refl).
Defined.
